(** * rag-qa-system: chunker, vector store, persistence and query pipeline

    A shallow embedding of the Python sources

      - [utils/chunker.py]            ([chunk_text])
      - [vector_store/faiss_db.py]    ([FAISSVectorStore])
      - [vector_store/__init__.py]    ([VectorStore])
      - [models/embedding.py]         ([DocumentEmbedder])
      - [models/llm.py]               ([SimpleLLM])
      - [main.py]                     ([query_documents])

    together with the properties the specification states about them. *)

From Stdlib Require Import ZArith List Ascii String Lia Bool Sorted.
From stdpp Require Import gmap strings list fin_maps sorting.
Import ListNotations.

Local Open Scope Z_scope.

(** ** Python values *)

(** A Python [str] is a sequence of characters; [len] is its length. *)
Definition str : Type := list ascii.

Definition lit (s : string) : str := list_ascii_of_string s.

(** The newline character. *)
Definition nl : str := ["010"%char].

Definition len {A : Type} (l : list A) : Z := Z.of_nat (length l).

(** Index normalisation of a slice bound, as CPython's [PySlice_AdjustIndices]
    does it for step 1: a negative bound counts from the end and is clamped
    at 0, a non-negative one is clamped at the length. *)
Definition slice_index (n i : Z) : Z :=
  if i <? 0 then Z.max 0 (i + n) else Z.min i n.

(** [s[start:stop]] *)
Definition py_slice {A : Type} (s : list A) (start stop : Z) : list A :=
  let lo := slice_index (len s) start in
  let hi := slice_index (len s) stop in
  firstn (Z.to_nat (hi - lo)) (skipn (Z.to_nat lo) s).

(** [s[:n]] for a literal [n >= 0]. *)
Definition py_prefix {A : Type} (s : list A) (n : Z) : list A := py_slice s 0 n.

(** [str.isspace] on one character, for the code points below 256. *)
Definition isspace (c : ascii) : bool :=
  let n := Z.of_nat (nat_of_ascii c) in
  ((9 <=? n) && (n <=? 13)) || ((28 <=? n) && (n <=? 32))
  || (n =? 133) || (n =? 160).

Fixpoint lstrip (s : str) : str :=
  match s with
  | [] => []
  | c :: s' => if isspace c then lstrip s' else s
  end.

Definition rstrip (s : str) : str := rev (lstrip (rev s)).

(** [s.strip()] *)
Definition strip (s : str) : str := rstrip (lstrip s).

(** Truth value of a sequence: non-empty. *)
Definition truthy {A : Type} (l : list A) : bool :=
  match l with [] => false | _ :: _ => true end.

(** [sep.join(parts)] *)
Fixpoint join (sep : str) (parts : list str) : str :=
  match parts with
  | [] => []
  | [p] => p
  | p :: ps => p ++ sep ++ join sep ps
  end.

(** ** utils/chunker.py *)

Module Chunker.

(** The [while start < text_length] loop of [chunk_text].  A Python [while]
    need not terminate, so the loop runs on fuel: [None] means the fuel ran
    out with the loop condition still true. *)
Fixpoint chunk_loop (fuel : nat) (text : str) (chunk_size overlap : Z)
    (start : Z) (chunks : list str) : option (list str) :=
  if start <? len text then
    match fuel with
    | O => None
    | S fuel' =>
        let end_ := start + chunk_size in
        let chunk := py_slice text start end_ in
        let chunks' := if truthy (strip chunk) then chunks ++ [chunk] else chunks in
        chunk_loop fuel' text chunk_size overlap (start + (chunk_size - overlap)) chunks'
    end
  else Some chunks.

Definition chunk_text (fuel : nat) (text : str) (chunk_size overlap : Z)
    : option (list str) :=
  chunk_loop fuel text chunk_size overlap 0 [].

(** The call [chunk_text(text)] terminates, or eventually fails, when some
    amount of fuel lets the loop exit. *)
Definition terminates (text : str) (chunk_size overlap : Z) : Prop :=
  exists fuel r, chunk_text fuel text chunk_size overlap = Some r.

(** The candidate window that the loop cuts at offset [start]. *)
Definition window (text : str) (chunk_size start : Z) : str :=
  py_slice text start (start + chunk_size).

Definition keeps (text : str) (chunk_size start : Z) : bool :=
  truthy (strip (window text chunk_size start)).

(** The first [n] start offsets [start, start + stride, ...]. *)
Fixpoint starts (n : nat) (start stride : Z) : list Z :=
  match n with
  | O => []
  | S n' => start :: starts n' (start + stride) stride
  end.

(** Number of loop iterations from [start] with a positive stride. *)
Definition iterations (n start stride : Z) : nat :=
  Z.to_nat ((n - start + stride - 1) / stride).

(** The last [k] characters of [a] are the first [k] characters of [b],
    and there are exactly [k] of them. *)
Definition overlaps_exactly (k : Z) (a b : str) : bool :=
  let suffix := skipn (length a - Z.to_nat k) a in
  let prefix := firstn (Z.to_nat k) b in
  bool_decide (suffix = prefix) && (len prefix =? k).

(** Every pair of neighbours in [chunks], the pair that ends in the final
    chunk apart, overlaps by exactly [k] characters. *)
Fixpoint consecutive_overlap (k : Z) (chunks : list str) : bool :=
  match chunks with
  | a :: ((b :: (_ :: _)) as rest) => overlaps_exactly k a b && consecutive_overlap k rest
  | _ => true
  end.

End Chunker.

(** ** Exceptions, results and effects *)

Inductive exn : Type :=
  | AssertionError
  | ValueError
  | IndexError
  | KeyError
  | AttributeError
  | FileNotFoundError
  | UnpicklingError
  | RuntimeError
  | ModelError (msg : string)
  | HTTPException (status : Z) (cause : exn).

(** The outcome of a call: a value, or a raised exception. *)
Inductive result (A : Type) : Type :=
  | Ok (a : A)
  | Raise (e : exn).
Arguments Ok {A} a.
Arguments Raise {A} e.

#[export] Instance result_ret : MRet result := fun A a => Ok a.
#[export] Instance result_bind : MBind result := fun A B f m =>
  match m with
  | Ok a => f a
  | Raise e => Raise e
  end.

(** Code that mutates a state [S] and may raise: the state reached is kept
    when an exception leaves the call. *)
Definition Eff (S A : Type) : Type := S -> result A * S.

#[export] Instance Eff_ret {S : Type} : MRet (Eff S) := fun A a s => (Ok a, s).
#[export] Instance Eff_bind {S : Type} : MBind (Eff S) := fun A B f m s =>
  match m s with
  | (Ok a, s') => f a s'
  | (Raise e, s') => (Raise e, s')
  end.

Definition lift {S A : Type} (r : result A) : Eff S A := fun s => (r, s).
Definition gets {S A : Type} (f : S -> A) : Eff S A := fun s => (Ok (f s), s).
Definition modify {S : Type} (f : S -> S) : Eff S unit := fun s => (Ok tt, f s).

(** [try: body except Exception as e: handler e] *)
Definition try_except {S A : Type} (body : Eff S A) (handler : exn -> Eff S A)
    : Eff S A :=
  fun s =>
    match body s with
    | (Ok a, s') => (Ok a, s')
    | (Raise e, s') => handler e s'
    end.

(** [l[i]] on a Python list: a negative index counts from the end. *)
Definition py_getitem {A : Type} (l : list A) (i : Z) : result A :=
  let j := if i <? 0 then i + len l else i in
  if (0 <=? j) && (j <? len l) then
    match l !! Z.to_nat j with
    | Some x => Ok x
    | None => Raise IndexError
    end
  else Raise IndexError.

(** ** Floating point

    The vectors, the distances and the similarity scores are floating-point
    numbers.  Nothing below depends on how they are computed: the arithmetic
    is an interface. *)
Class Float32 : Type := {
  f32 : Type;
  (** squared Euclidean distance of two vectors, as the flat index computes it *)
  l2 : list f32 -> list f32 -> f32;
  (** [a <= b] *)
  fle : f32 -> f32 -> bool;
  (** the largest finite float32 *)
  FLT_MAX : f32;
  (** Python floats *)
  pyfloat : Type;
  (** [round(1 / (1 + float(d)), 3)] *)
  similarity : f32 -> pyfloat;
}.

(** Exact integer arithmetic as an instance, to run the definitions on
    concrete vectors.  A score [1 / (1 + d)] is kept as the pair of its
    numerator and denominator. *)
Fixpoint sum_sq_diff (a b : list Z) : Z :=
  match a, b with
  | x :: a', y :: b' => (x - y) * (x - y) + sum_sq_diff a' b'
  | _, _ => 0
  end.

#[export] Instance ZFloat : Float32 := {|
  f32 := Z;
  l2 := sum_sq_diff;
  fle := Z.leb;
  FLT_MAX := 340282346638528859811704183484516925440;
  pyfloat := Z * Z;
  similarity := fun d => (1, 1 + d);
|}.

(** ** numpy arrays and the faiss flat index

    numpy and faiss are libraries the repository imports.  They are modelled
    from their documented behaviour, as far as the repository uses them. *)

Module Faiss.
Section Faiss.
Context `{Float32}.

(** An array of float32: one-dimensional, or two-dimensional with [cols]
    columns. *)
Inductive ndarray : Type :=
  | Arr1 (v : list f32)
  | Arr2 (cols : Z) (rows : list (list f32)).

(** [np.array(rows).astype('float32')] on a list of lists of floats: the
    empty list gives a one-dimensional array of shape [(0,)], rows of one
    length a two-dimensional array, ragged rows a [ValueError]. *)
Definition np_array (rows : list (list f32)) : result ndarray :=
  match rows with
  | [] => Ok (Arr1 [])
  | r :: rs =>
      if forallb (fun r' => len r' =? len r) rs
      then Ok (Arr2 (len r) rows)
      else Raise ValueError
  end.

(** The elements of an array, row after row. *)
Definition flat (x : ndarray) : list f32 :=
  match x with
  | Arr1 v => v
  | Arr2 _ rows => concat rows
  end.

(** [x.reshape(1, -1)] *)
Definition reshape_row (x : ndarray) : ndarray := Arr2 (len (flat x)) [flat x].

(** [faiss.IndexFlatL2]: the dimension [d] and the stored vectors, in
    insertion order; [ntotal] is their number. *)
Record IndexFlatL2 : Type := {
  d : Z;
  xb : list (list f32);
}.

Definition new (dimension : Z) : IndexFlatL2 := {| d := dimension; xb := [] |}.

Definition ntotal (index : IndexFlatL2) : Z := len (xb index).

(** [index.add(x)]: the Python wrapper unpacks [n, d = x.shape] and asserts
    [d == self.d] before anything is stored. *)
Definition add (index : IndexFlatL2) (x : ndarray) : result IndexFlatL2 :=
  match x with
  | Arr1 _ => Raise ValueError
  | Arr2 cols rows =>
      if cols =? d index
      then Ok {| d := d index; xb := xb index ++ rows |}
      else Raise AssertionError
  end.

(** Insertion into a list sorted by distance, after the entries that are
    not farther. *)
Fixpoint insert_by_distance (x : f32 * Z) (l : list (f32 * Z)) : list (f32 * Z) :=
  match l with
  | [] => [x]
  | y :: l' => if fle (fst x) (fst y) then x :: l else y :: insert_by_distance x l'
  end.

Fixpoint sort_by_distance (l : list (f32 * Z)) : list (f32 * Z) :=
  match l with
  | [] => []
  | x :: l' => insert_by_distance x (sort_by_distance l')
  end.

(** The distance of the query to every stored vector, with its position. *)
Definition scan (index : IndexFlatL2) (q : list f32) : list (f32 * Z) :=
  imap (fun i v => (l2 q v, Z.of_nat i)) (xb index).

(** The [k] nearest stored vectors of one query, nearest first.  When fewer
    than [k] vectors are stored the result is filled up to [k] entries with
    the label [-1] and the distance [FLT_MAX].  (faiss does not say which of
    two equally distant vectors comes first; here it is the one stored
    first.) *)
Definition knn (index : IndexFlatL2) (q : list f32) (k : nat) : list (f32 * Z) :=
  let best := firstn k (sort_by_distance (scan index q)) in
  best ++ replicate (k - length best) (FLT_MAX, -1).

(** The entries of [knn] that are stored vectors, without the padding. *)
Definition found (index : IndexFlatL2) (q : list f32) (k : nat) : list (f32 * Z) :=
  firstn k (sort_by_distance (scan index q)).

(** Distances are compared by [fle].  It is a total preorder on the floats
    that are not NaN. *)
Definition fle_total : Prop := forall a b : f32, fle a b = true \/ fle b a = true.
Definition fle_trans : Prop :=
  forall a b c : f32, fle a b = true -> fle b c = true -> fle a c = true.

Definition le_dist (a b : f32) : Prop := fle a b = true.
Definition le_entry (x y : f32 * Z) : Prop := le_dist (fst x) (fst y).

(** [index.search(x, k)]: asserts [d == self.d] and [k > 0], then returns the
    arrays [(distances, labels)], each with one row of [k] entries per
    query. *)
Definition search (index : IndexFlatL2) (x : ndarray) (k : Z)
    : result (list (list f32) * list (list Z)) :=
  match x with
  | Arr1 _ => Raise ValueError
  | Arr2 cols rows =>
      if negb (cols =? d index) then Raise AssertionError
      else if negb (0 <? k) then Raise AssertionError
      else
        let nearest := map (fun q => knn index q (Z.to_nat k)) rows in
        Ok (map (map fst) nearest, map (map snd) nearest)
  end.

End Faiss.
End Faiss.

(** ** Python objects *)

Section PyValues.
Context `{Float32}.

(** The values that the metadata dictionaries hold. *)
Inductive pyval : Type :=
  | VStr (s : str)
  | VFloat (x : f32).

(** [d.get(key, default)] *)
Definition dict_get (d : gmap string pyval) (key : string) (default : pyval) : pyval :=
  match d !! key with
  | Some v => v
  | None => default
  end.

(** [d[key]] *)
Definition dict_getitem (d : gmap string pyval) (key : string) : result pyval :=
  match d !! key with
  | Some v => Ok v
  | None => Raise KeyError
  end.

(** [v.strip()] *)
Definition str_strip (v : pyval) : result str :=
  match v with
  | VStr s => Ok (strip s)
  | VFloat _ => Raise AttributeError
  end.

End PyValues.

(** ** vector_store/faiss_db.py *)

Module faiss_db.
Section faiss_db.
Context `{Float32}.

Record FAISSVectorStore : Type := {
  dimension : Z;
  index : Faiss.IndexFlatL2;
  chunks : list str;
  metadata : list (gmap string pyval);
}.

(** [FAISSVectorStore(dimension)] *)
Definition init (dimension : Z) : FAISSVectorStore := {|
  dimension := dimension;
  index := Faiss.new dimension;
  chunks := [];
  metadata := [];
|}.

Definition set_index (index' : Faiss.IndexFlatL2) (self : FAISSVectorStore)
    : FAISSVectorStore :=
  {| dimension := dimension self; index := index';
     chunks := chunks self; metadata := metadata self |}.

Definition extend_chunks (new : list str) (self : FAISSVectorStore)
    : FAISSVectorStore :=
  {| dimension := dimension self; index := index self;
     chunks := chunks self ++ new; metadata := metadata self |}.

Definition extend_metadata (new : list (gmap string pyval)) (self : FAISSVectorStore)
    : FAISSVectorStore :=
  {| dimension := dimension self; index := index self;
     chunks := chunks self; metadata := metadata self ++ new |}.

(** [self.index.add(x)] *)
Definition index_add (x : Faiss.ndarray) : Eff FAISSVectorStore unit :=
  fun self =>
    match Faiss.add (index self) x with
    | Ok index' => (Ok tt, set_index index' self)
    | Raise e => (Raise e, self)
    end.

Definition add_documents (chunks : list str) (embeddings : list (list f32))
    (metadata : list (gmap string pyval)) : Eff FAISSVectorStore unit :=
  embeddings_np ← lift (Faiss.np_array embeddings);
  index_add embeddings_np;;
  modify (extend_chunks chunks);;
  modify (extend_metadata metadata).

Definition search (self : FAISSVectorStore) (query_embedding : list f32) (k : Z)
    : result (list (list f32) * list (list Z)) :=
  let query_np := Faiss.Arr2 (len query_embedding) [query_embedding] in
  Faiss.search (index self) query_np k.

Definition get_total_chunks (self : FAISSVectorStore) : Z := len (chunks self).

(** The three collections have one length. *)
Definition aligned (self : FAISSVectorStore) : Prop :=
  Faiss.ntotal (index self) = len (chunks self)
  /\ len (chunks self) = len (metadata self).

(** The arguments of one call have one length. *)
Definition call_aligned
    (call : list str * list (list f32) * list (gmap string pyval)) : Prop :=
  let '(new_chunks, embeddings, new_metadata) := call in
  len embeddings = len new_chunks /\ len new_chunks = len new_metadata.


End faiss_db.
End faiss_db.

(** ** vector_store/__init__.py *)

Module vector_store.
Section vector_store.
Context `{Float32}.

(** What a file holds: an index written by [faiss.write_index], a list of
    dictionaries written by [pickle.dump], or anything else. *)
Inductive file : Type :=
  | IndexFile (index : Faiss.IndexFlatL2)
  | PickleFile (records : list (gmap string pyval))
  | OtherFile.

(** A dictionary is an object: the metadata list holds references into the
    heap, and a reference is the allocation number of its object. *)
Definition ref : Type := nat.

Record VectorStore : Type := {
  dimension : Z;
  index_file : string;
  metadata_file : string;
  index : option Faiss.IndexFlatL2;
  metadata : list ref;
}.

(** The store, the heap of dictionaries and the files. *)
Record world : Type := {
  self : VectorStore;
  heap : list (gmap string pyval);
  fs : gmap string file;
}.

Definition set_index (index' : option Faiss.IndexFlatL2) (w : world) : world :=
  {| self := {| dimension := dimension (self w); index_file := index_file (self w);
                metadata_file := metadata_file (self w); index := index';
                metadata := metadata (self w) |};
     heap := heap w; fs := fs w |}.

Definition set_metadata (metadata' : list ref) (w : world) : world :=
  {| self := {| dimension := dimension (self w); index_file := index_file (self w);
                metadata_file := metadata_file (self w); index := index (self w);
                metadata := metadata' |};
     heap := heap w; fs := fs w |}.

Definition set_heap (heap' : list (gmap string pyval)) (w : world) : world :=
  {| self := self w; heap := heap'; fs := fs w |}.

Definition set_fs (fs' : gmap string file) (w : world) : world :=
  {| self := self w; heap := heap w; fs := fs' |}.

(** A new dictionary object. *)
Definition alloc (d : gmap string pyval) : Eff world ref :=
  fun w => (Ok (length (heap w)), set_heap (heap w ++ [d]) w).

(** The dictionary behind a reference (every reference the program holds
    is allocated). *)
Definition deref (r : ref) : Eff world (gmap string pyval) :=
  fun w =>
    match heap w !! r with
    | Some d => (Ok d, w)
    | None => (Raise RuntimeError, w)
    end.

(** [r.copy()] *)
Definition dict_copy (r : ref) : Eff world ref :=
  d ← deref r;
  alloc d.

(** [r[key] = v] *)
Definition dict_setitem (r : ref) (key : string) (v : pyval) : Eff world unit :=
  d ← deref r;
  modify (fun w => set_heap (<[r := <[key := v]> d]> (heap w)) w).

Fixpoint alloc_all (records : list (gmap string pyval)) : Eff world (list ref) :=
  match records with
  | [] => mret []
  | d :: records' =>
      r ← alloc d;
      rs ← alloc_all records';
      mret (r :: rs)
  end.

Fixpoint deref_all (refs : list ref) : Eff world (list (gmap string pyval)) :=
  match refs with
  | [] => mret []
  | r :: refs' =>
      d ← deref r;
      ds ← deref_all refs';
      mret (d :: ds)
  end.

(** [faiss.read_index(path)] *)
Definition read_index (files : gmap string file) (path : string)
    : result Faiss.IndexFlatL2 :=
  match files !! path with
  | Some (IndexFile index) => Ok index
  | _ => Raise RuntimeError
  end.

(** [with open(path, 'rb') as f: pickle.load(f)] *)
Definition pickle_load (files : gmap string file) (path : string)
    : result (list (gmap string pyval)) :=
  match files !! path with
  | None => Raise FileNotFoundError
  | Some (PickleFile records) => Ok records
  | Some _ => Raise UnpicklingError
  end.

(** [self.index], which is [None] until it is loaded or created. *)
Definition the_index : Eff world Faiss.IndexFlatL2 :=
  fun w =>
    match index (self w) with
    | Some index => (Ok index, w)
    | None => (Raise AttributeError, w)
    end.

Definition load_or_create_index : Eff world unit :=
  this ← gets self;
  files ← gets fs;
  if bool_decide (is_Some (files !! index_file this)) then
    index ← lift (read_index files (index_file this));
    modify (set_index (Some index));;
    records ← lift (pickle_load files (metadata_file this));
    refs ← alloc_all records;
    modify (set_metadata refs)
  else
    modify (set_index (Some (Faiss.new (dimension this)))).

(** [VectorStore(dimension, index_file, metadata_file)], in a process with
    the given heap and files. *)
Definition init (dimension : Z) (index_file metadata_file : string)
    (heap : list (gmap string pyval)) (fs : gmap string file)
    : result unit * world :=
  load_or_create_index
    {| self := {| dimension := dimension; index_file := index_file;
                  metadata_file := metadata_file; index := None; metadata := [] |};
       heap := heap; fs := fs |}.

(** [save_index]: both files are written in full.  (Directories are not
    modelled: [os.makedirs] has no effect on the files.) *)
Definition save_index : Eff world unit :=
  this ← gets self;
  index ← the_index;
  modify (fun w => set_fs (<[index_file this := IndexFile index]> (fs w)) w);;
  records ← deref_all (metadata this);
  modify (fun w => set_fs (<[metadata_file this := PickleFile records]> (fs w)) w).

Definition add_vectors (vectors : Faiss.ndarray) (metadata' : list ref)
    : Eff world unit :=
  index ← the_index;
  index' ← lift (Faiss.add index vectors);
  modify (set_index (Some index'));;
  this ← gets self;
  modify (set_metadata (metadata this ++ metadata'));;
  save_index.

(** [for i, idx in enumerate(indices[0])], from position [i] on. *)
Fixpoint search_loop (distances : list (list f32)) (i : Z) (indices0 : list Z)
    (results : list ref) : Eff world (list ref) :=
  match indices0 with
  | [] => mret results
  | idx :: rest =>
      this ← gets self;
      if idx <? len (metadata this) then
        record ← lift (py_getitem (metadata this) idx);
        result ← dict_copy record;
        distances0 ← lift (py_getitem distances 0);
        distance ← lift (py_getitem distances0 i);
        dict_setitem result "distance" (VFloat distance);;
        search_loop distances (i + 1) rest (results ++ [result])
      else search_loop distances (i + 1) rest results
  end.

Definition search (query_vector : Faiss.ndarray) (k : Z) : Eff world (list ref) :=
  index ← the_index;
  '(distances, indices) ← lift (Faiss.search index (Faiss.reshape_row query_vector) k);
  indices0 ← lift (py_getitem indices 0);
  search_loop distances 0 indices0 [].

(** Every reference in the metadata list is allocated. *)
Definition allocated (w : world) : Prop :=
  Forall (fun r => (r < length (heap w))%nat) (metadata (self w)).

(** [d] is a stored metadata record of [w] with the key "distance" added. *)
Definition tagged_copy (w : world) (d : gmap string pyval) : Prop :=
  exists r record distance,
    r ∈ metadata (self w) /\ heap w !! r = Some record
    /\ d = <["distance"%string := VFloat distance]> record.



(** The index holds as many vectors as the metadata list has records. *)
Definition aligned (w : world) : Prop :=
  exists index, vector_store.index (self w) = Some index
    /\ Faiss.ntotal index = len (metadata (self w)).

(** The array of one call has as many rows as the call has metadata
    records. *)
Definition call_aligned (call : Faiss.ndarray * list ref) : Prop :=
  match call with
  | (Faiss.Arr1 v, metadata') => len v = len metadata'
  | (Faiss.Arr2 _ rows, metadata') => len rows = len metadata'
  end.


End vector_store.
End vector_store.

(** ** The calls that leave the core *)

(** The model calls made, in order: the sentence encoder, the answer
    generation port and the text generator behind it. *)
Inductive event : Type :=
  | Encode (texts : list str)
  | GenerateAnswer (question context : str)
  | Generator (prompt : str).

Definition emit (e : event) : Eff (list event) unit :=
  modify (fun log => log ++ [e]).

(** ** models/embedding.py *)

Module embedding.
Section embedding.
Context `{Float32}.

(** The sentence encoder is an external model: [model.encode(texts).tolist()]
    is any function that returns vectors or raises. *)
Record DocumentEmbedder : Type := {
  encode : list str -> result (list (list f32));
}.

Definition embed_documents (self : DocumentEmbedder) (texts : list str)
    : Eff (list event) (list (list f32)) :=
  emit (Encode texts);;
  lift (encode self texts).

Definition embed_query (self : DocumentEmbedder) (query : str)
    : Eff (list event) (list f32) :=
  emit (Encode [query]);;
  embedding ← lift (encode self [query]);
  lift (py_getitem embedding 0).

End embedding.
End embedding.

(** ** models/llm.py *)

Module llm.
Section llm.
Context `{Float32}.

(** [self.generator] is the text2text pipeline, or [None] when loading it
    failed.  A call returns a list of dictionaries or raises. *)
Record SimpleLLM : Type := {
  generator : option (str -> result (list (gmap string pyval)));
}.

Definition prompt_of (question context : str) : str :=
  lit "Answer the following question based only on the context provided."
  ++ nl ++ nl ++ lit "Context: " ++ py_prefix context 1500
  ++ nl ++ nl ++ lit "Question: " ++ question
  ++ nl ++ nl ++ lit "Provide a clear, concise answer based on the context above.".

Definition unavailable (context : str) : str :=
  lit "LLM not available. Retrieved context: " ++ py_prefix context 500.

Definition degraded (context : str) : str :=
  lit "Error generating answer. Retrieved context: " ++ py_prefix context 500.

Definition generate_answer (self : SimpleLLM) (question context : str)
    : Eff (list event) str :=
  match generator self with
  | None => mret (unavailable context)
  | Some generator =>
      try_except
        (let prompt := prompt_of question context in
         emit (Generator prompt);;
         result ← lift (generator prompt);
         first ← lift (py_getitem result 0);
         text ← lift (dict_getitem first "generated_text");
         answer ← lift (str_strip text);
         mret answer)
        (fun e => mret (degraded context))
  end.

(** The model calls of [generate_answer]: one call of the generator with
    the prompt, when there is a generator. *)
Definition generator_calls (self : SimpleLLM) (question context : str) : list event :=
  match generator self with
  | Some _ => [Generator (prompt_of question context)]
  | None => []
  end.

End llm.
End llm.

(** ** main.py *)

Module main.
Section main.
Context `{Float32}.

(** The process-wide instances, and the log of the model calls made. *)
Record app : Type := {
  embedder : embedding.DocumentEmbedder;
  vector_store : faiss_db.FAISSVectorStore;
  llm_instance : llm.SimpleLLM;
  log : list event;
}.

Definition set_log (l : list event) (s : app) : app :=
  {| embedder := embedder s; vector_store := vector_store s;
     llm_instance := llm_instance s; log := l |}.

(** Run a model call, which only adds to the log. *)
Definition call {A : Type} (m : Eff (list event) A) : Eff app A :=
  fun s => let '(r, l) := m (log s) in (r, set_log l s).

(** The JSON object returned by [/query]; the short-circuit answer has no
    [num_chunks_retrieved] key. *)
Record response : Type := {
  question : str;
  answer : str;
  sources : list pyval;
  similarity_scores : list pyfloat;
  num_chunks_retrieved : option Z;
}.

Definition no_documents : str :=
  lit "No documents uploaded yet. Please upload documents first.".

(** The retrieved chunks, their sources and their scores. *)
Definition retrieved : Type := list str * list pyval * list pyfloat.

(** [for i, idx in enumerate(indices[0])], from position [i] on. *)
Fixpoint retrieve (vs : faiss_db.FAISSVectorStore) (distances : list (list f32))
    (i : Z) (indices0 : list Z) (acc : retrieved) : result retrieved :=
  match indices0 with
  | [] => Ok acc
  | idx :: rest =>
      if idx <? len (faiss_db.chunks vs) then
        chunk_text ← py_getitem (faiss_db.chunks vs) idx;
        record ← py_getitem (faiss_db.metadata vs) idx;
        let source_doc := dict_get record "source" (VStr (lit "unknown")) in
        distances0 ← py_getitem distances 0;
        distance ← py_getitem distances0 i;
        let similarity_score := similarity distance in
        let '(retrieved_chunks, sources, similarity_scores) := acc in
        retrieve vs distances (i + 1) rest
          (retrieved_chunks ++ [chunk_text], sources ++ [source_doc],
           similarity_scores ++ [similarity_score])
      else retrieve vs distances (i + 1) rest acc
  end.

(** The body of the [try] block of [query_documents]. *)
Definition query_body (question : str) : Eff app response :=
  vs ← gets vector_store;
  if faiss_db.get_total_chunks vs =? 0 then
    mret {| question := question; answer := no_documents;
            sources := []; similarity_scores := [];
            num_chunks_retrieved := None |}
  else
    emb ← gets embedder;
    question_embedding ← call (embedding.embed_query emb question);
    '(distances, indices) ← lift (faiss_db.search vs question_embedding 3);
    indices0 ← lift (py_getitem indices 0);
    '(retrieved_chunks, sources, similarity_scores) ←
      lift (retrieve vs distances 0 indices0 ([], [], []));
    let context := join (nl ++ nl) retrieved_chunks in
    llm ← gets llm_instance;
    answer ← call (emit (GenerateAnswer question context);;
                   llm.generate_answer llm question context);
    mret {| question := question; answer := answer;
            sources := sources; similarity_scores := similarity_scores;
            num_chunks_retrieved := Some (len retrieved_chunks) |}.

(** [query_documents]: any exception becomes an HTTP 500. *)
Definition query_documents (question : str) : Eff app response :=
  try_except (query_body question)
    (fun e => lift (Raise (HTTPException 500 e))).

End main.
End main.

(** ** Concrete stores and ports

    Small instances over [ZFloat], on which the definitions run. *)

Module Examples.

Definition source (name : string) : gmap string (@pyval ZFloat) :=
  {[ "source"%string := VStr (lit name) ]}.


(** One stored vector. *)
Definition one_vector : @faiss_db.FAISSVectorStore ZFloat :=
  snd (faiss_db.add_documents [lit "alpha"] [[1; 2]] [source "a.txt"]
         (faiss_db.init 2)).

(** Five stored two-dimensional vectors. *)
Definition five_vectors : @faiss_db.FAISSVectorStore ZFloat :=
  snd (faiss_db.add_documents [lit "a"; lit "b"; lit "c"; lit "d"; lit "e"]
         [[0; 0]; [5; 5]; [1; 1]; [3; 3]; [1; 0]]
         (replicate 5 (source "doc.txt")) (faiss_db.init 2)).


(** An encoder that maps every text to the vector [(1, 1)]. *)
Definition constant_encoder : @embedding.DocumentEmbedder ZFloat :=
  {| embedding.encode := fun texts => Ok (map (fun _ => [1; 1]) texts) |}.

(** A generator that answers every prompt alike, no generator, and a
    generator that raises. *)
Definition fixed_llm : @llm.SimpleLLM ZFloat :=
  {| llm.generator :=
       Some (fun _ => Ok [ {[ "generated_text"%string := VStr (lit "  an answer ") ]} ]) |}.

Definition no_llm : @llm.SimpleLLM ZFloat := {| llm.generator := None |}.

Definition failing_llm : @llm.SimpleLLM ZFloat :=
  {| llm.generator := Some (fun _ => Raise (ModelError "out of memory")) |}.

Definition app_of (store : @faiss_db.FAISSVectorStore ZFloat)
    (model : @llm.SimpleLLM ZFloat) : @main.app ZFloat :=
  {| main.embedder := constant_encoder; main.vector_store := store;
     main.llm_instance := model; main.log := [] |}.

(** The default paths of [VectorStore]. *)
Definition index_path : string := "vector_store/index.faiss".
Definition metadata_path : string := "vector_store/metadata.pkl".

(** No file at all: the first run. *)
Definition no_files : gmap string (@vector_store.file ZFloat) := ∅.

(** A saved index of two vectors next to a metadata file of one record. *)
Definition mismatched_files : gmap string (@vector_store.file ZFloat) :=
  {[ index_path :=
       vector_store.IndexFile {| Faiss.d := 2; Faiss.xb := [[0; 0]; [1; 1]] |};
     metadata_path := vector_store.PickleFile [source "a.txt"] ]}.

(** A saved store of two vectors and their two records. *)
Definition two_vector_index : @Faiss.IndexFlatL2 ZFloat :=
  {| Faiss.d := 2; Faiss.xb := [[0; 0]; [3; 3]] |}.

Definition two_record_files : gmap string (@vector_store.file ZFloat) :=
  {[ index_path := vector_store.IndexFile two_vector_index;
     metadata_path := vector_store.PickleFile [source "a.txt"; source "b.txt"] ]}.

(** The query vector [(3, 3)]. *)
Definition query_3_3 : @Faiss.ndarray ZFloat := Faiss.Arr1 [3; 3].

Definition loaded : @vector_store.world ZFloat :=
  snd (vector_store.init 2 index_path metadata_path [] two_record_files).

End Examples.

(** ** main.py: the background ingestion *)

Module main_background.
Section main_background.
Context `{Float32}.

(** [utils/pdf_parser.py] is not among the sources: its two extractors are
    taken as they come, functions from a path to a text that may raise. *)
Record pdf_parser : Type := {
  extract_text_from_pdf : str -> result str;
  extract_text_from_txt : str -> result str;
}.

(** [s.endswith(suffix)] *)
Definition endswith (s suffix : str) : bool :=
  bool_decide (skipn (length s - length suffix) s = suffix).

Definition set_vector_store (vs : faiss_db.FAISSVectorStore) (s : main.app) : main.app :=
  {| main.embedder := main.embedder s; main.vector_store := vs;
     main.llm_instance := main.llm_instance s; main.log := main.log s |}.

(** Run a method of the process-wide [vector_store]. *)
Definition on_store {A : Type} (m : Eff faiss_db.FAISSVectorStore A) : Eff main.app A :=
  fun s => let '(r, vs) := m (main.vector_store s) in (r, set_vector_store vs s).

(** [[{"source": filename} for _ in chunks]] *)
Definition source_records (filename : str) (chunks : list str)
    : list (gmap string pyval) :=
  map (fun _ => {[ "source"%string := VStr filename ]}) chunks.

(** The steps of the [try] block after the chunking. *)
Definition store_chunks (chunks : list str) (filename : str) : Eff main.app unit :=
  emb ← gets main.embedder;
  embeddings ← main.call (embedding.embed_documents emb chunks);
  let metadata := source_records filename chunks in
  on_store (faiss_db.add_documents chunks embeddings metadata).

(** The text that [process_document_background] works on: a path that
    ends in ".pdf" goes to the PDF extractor, every other path to the text
    extractor. *)
Definition extracted_text (parser : pdf_parser) (file_path : str) : result str :=
  if endswith file_path (lit ".pdf")
  then extract_text_from_pdf parser file_path
  else extract_text_from_txt parser file_path.

(** [process_document_background]: every exception is caught and printed.
    [None] means that the chunking loop ran out of fuel. *)
Definition process_document_background (parser : pdf_parser) (fuel : nat)
    (file_path filename : str) (s : main.app) : option (result unit * main.app) :=
  match extracted_text parser file_path with
  | Raise e => Some (Ok tt, s)
  | Ok text =>
      match Chunker.chunk_text fuel text 500 50 with
      | None => None
      | Some chunks =>
          Some (try_except (store_chunks chunks filename) (fun e => mret tt) s)
      end
  end.

(** [health_check]: the status and the number of stored chunks. *)
Definition health_check (s : main.app) : str * Z :=
  (lit "healthy", faiss_db.get_total_chunks (main.vector_store s)).

(** The encoder returns one vector for each text it is given. *)
Definition one_vector_per_text (emb : embedding.DocumentEmbedder) : Prop :=
  forall texts vectors, embedding.encode emb texts = Ok vectors -> len vectors = len texts.

End main_background.
End main_background.

(** ** Concrete documents *)

Module BackgroundExamples.

(** Extractors that read "alpha beta" from every text file and fail on
    every PDF, and extractors that read a blank text. *)
Definition notes_parser : main_background.pdf_parser :=
  {| main_background.extract_text_from_pdf := fun _ => Raise (ModelError "not a PDF");
     main_background.extract_text_from_txt := fun _ => Ok (lit "alpha beta") |}.

Definition blank_parser : main_background.pdf_parser :=
  {| main_background.extract_text_from_pdf := fun _ => Ok (lit "   ");
     main_background.extract_text_from_txt := fun _ => Ok (lit "   ") |}.

Definition notes_path : str := lit "uploads/notes.txt".
Definition notes_name : str := lit "notes.txt".

Definition serving : @main.app ZFloat := Examples.app_of Examples.one_vector Examples.fixed_llm.

(** The same process with an encoder that is out of service. *)
Definition encoder_down : @main.app ZFloat :=
  {| main.embedder := {| embedding.encode := fun _ => Raise (ModelError "down") |};
     main.vector_store := Examples.one_vector;
     main.llm_instance := Examples.fixed_llm; main.log := [] |}.

(** The loaded store after one more vector with a record of its own. *)
Definition grown : @vector_store.world ZFloat :=
  snd (vector_store.add_vectors (Faiss.Arr2 2 [[7; 7]]) [0%nat] Examples.loaded).

End BackgroundExamples.

(** ** main.py: the upload endpoint *)

Module main_upload.

(** [str.lower] on one character, for the code points below 256: the
    letters A to Z and the capital letters of Latin-1. *)
Definition lower_char (c : ascii) : ascii :=
  let n := Z.of_nat (nat_of_ascii c) in
  if ((65 <=? n) && (n <=? 90)) || ((192 <=? n) && (n <=? 214))
     || ((216 <=? n) && (n <=? 222))
  then ascii_of_nat (nat_of_ascii c + 32)
  else c.

(** [s.lower()] *)
Definition lower (s : str) : str := map lower_char s.

(** [s.startswith(prefix)] *)
Definition startswith (s prefix : str) : bool :=
  bool_decide (firstn (length prefix) s = prefix).

(** The first position of a character, if it occurs. *)
Fixpoint find_char (c : ascii) (s : str) : option nat :=
  match s with
  | [] => None
  | x :: s' => if bool_decide (x = c) then Some 0%nat else S <$> find_char c s'
  end.

(** [s.rfind(c)] for one character: its last position, or -1. *)
Definition rfind (c : ascii) (s : str) : Z :=
  match find_char c (rev s) with
  | Some i => len s - 1 - Z.of_nat i
  | None => -1
  end.

(** [os.path.splitext] as [posixpath] has it: the extension starts at the
    last dot of the last path component, unless only dots come before it
    there. *)
Definition splitext (p : str) : str * str :=
  let sepIndex := rfind "/" p in
  let dotIndex := rfind "." p in
  if (sepIndex <? dotIndex)
     && negb (forallb (fun c => bool_decide (c = "."%char))
                (py_slice p (sepIndex + 1) dotIndex))
  then (py_slice p 0 dotIndex, py_slice p dotIndex (len p))
  else (p, []).

(** [os.path.join(a, b)] as [posixpath] has it: an absolute [b] replaces
    [a]. *)
Definition path_join (a b : str) : str :=
  if startswith b (lit "/") then b
  else if negb (truthy a) || main_background.endswith a (lit "/") then a ++ b
  else a ++ lit "/" ++ b.

Definition UPLOAD_DIR : str := lit "uploads".

Definition allowed_types : list str := [lit ".pdf"; lit ".txt"].

(** The uploaded file: its name as the client sent it, and its bytes. *)
Record UploadFile : Type := {
  filename : str;
  file : str;
}.

(** The file system is taken as it comes: writing the upload to a path
    ([open(file_path, "wb")] and [shutil.copyfileobj]) and [os.path.getsize]
    return or raise. *)
Record os_port : Type := {
  copyfileobj : str -> str -> result unit;
  getsize : str -> result Z;
}.

(** The JSON object returned by [/upload]. *)
Record uploaded : Type := {
  message : str;
  uploaded_filename : str;
  path : str;
  size : Z;
  status : str;
}.

(** The two [HTTPException]s of [upload_document]. *)
Inductive upload_error : Type :=
  | UnsupportedType (file_ext : str)
  | UploadFailed (cause : exn).

Definition status_code (e : upload_error) : Z :=
  match e with
  | UnsupportedType _ => 400
  | UploadFailed _ => 500
  end.

Definition detail_400 (file_ext : str) : str :=
  lit "Only PDF and TXT files allowed. You uploaded: " ++ file_ext.

(** [upload_document], on the list of the background tasks added so far;
    a task is the pair of arguments of [process_document_background]. *)
Definition upload_document (os : os_port) (upload : UploadFile)
    (background_tasks : list (str * str))
    : (uploaded + upload_error) * list (str * str) :=
  let file_ext := lower (snd (splitext (filename upload))) in
  if negb (bool_decide (file_ext ∈ allowed_types)) then
    (inr (UnsupportedType file_ext), background_tasks)
  else
    let file_path := path_join UPLOAD_DIR (filename upload) in
    match copyfileobj os file_path (file upload) with
    | Raise e => (inr (UploadFailed e), background_tasks)
    | Ok _ =>
        let background_tasks := background_tasks ++ [(file_path, filename upload)] in
        match getsize os file_path with
        | Raise e => (inr (UploadFailed e), background_tasks)
        | Ok size =>
            (inl {| message := lit "File uploaded successfully! Processing in background...";
                    uploaded_filename := filename upload;
                    path := file_path;
                    size := size;
                    status := lit "processing" |},
             background_tasks)
        end
    end.

End main_upload.

(** ** Concrete uploads *)

Module UploadExamples.

(** A file system that stores every upload and reports 12 bytes. *)
Definition disk : main_upload.os_port :=
  {| main_upload.copyfileobj := fun _ _ => Ok tt;
     main_upload.getsize := fun _ => Ok 12 |}.

Definition report : main_upload.UploadFile :=
  {| main_upload.filename := lit "REPORT.PDF"; main_upload.file := lit "%PDF-1.4 ..." |}.

Definition dotfile : main_upload.UploadFile :=
  {| main_upload.filename := lit ".pdf"; main_upload.file := lit "%PDF-1.4 ..." |}.

Definition absolute : main_upload.UploadFile :=
  {| main_upload.filename := lit "/srv/app/notes.txt"; main_upload.file := lit "alpha beta" |}.

(** Extractors that tell which of them was called. *)
Definition telling_parser : main_background.pdf_parser :=
  {| main_background.extract_text_from_pdf := fun _ => Ok (lit "from the PDF extractor");
     main_background.extract_text_from_txt := fun _ => Ok (lit "from the text extractor") |}.

End UploadExamples.

(** * Properties *)

(** ** Python sequences *)

Lemma len_nonneg {A : Type} (l : list A) : 0 <= len l.
Proof. unfold len. lia. Qed.

Lemma len_app {A : Type} (l1 l2 : list A) : len (l1 ++ l2) = len l1 + len l2.
Proof. unfold len. rewrite length_app. lia. Qed.

Lemma slice_index_range (n i : Z) : 0 <= n -> 0 <= slice_index n i <= n.
Proof. unfold slice_index. destruct (Z.ltb_spec i 0); lia. Qed.

Lemma slice_index_nonneg (n i : Z) : 0 <= i -> slice_index n i = Z.min i n.
Proof. unfold slice_index. destruct (Z.ltb_spec i 0); lia. Qed.

(** A slice with non-negative bounds, in terms of [firstn] and [skipn]. *)
Lemma py_slice_nonneg {A : Type} (s : list A) (start stop : Z) :
  0 <= start -> 0 <= stop ->
  py_slice s start stop
  = firstn (Z.to_nat (stop - start)) (skipn (Z.to_nat start) s).
Proof.
  intros Hs He. unfold py_slice.
  rewrite !slice_index_nonneg by assumption.
  pose proof (len_nonneg s) as Hl. unfold len in *.
  destruct (Z.le_gt_cases start (Z.of_nat (length s))) as [Hle | Hgt].
  - rewrite (Z.min_l start) by lia.
    destruct (Z.le_gt_cases stop (Z.of_nat (length s))) as [Hle' | Hgt'].
    + rewrite (Z.min_l stop) by lia. reflexivity.
    + rewrite (Z.min_r stop) by lia.
      rewrite !firstn_all2; try reflexivity; rewrite length_skipn; lia.
  - rewrite (Z.min_r start) by lia.
    rewrite !skipn_all2 by lia. now rewrite !firstn_nil.
Qed.

Lemma py_prefix_firstn {A : Type} (s : list A) (n : Z) :
  0 <= n -> py_prefix s n = firstn (Z.to_nat n) s.
Proof.
  intros Hn. unfold py_prefix. rewrite py_slice_nonneg by lia.
  now rewrite Z.sub_0_r.
Qed.

Lemma py_slice_length_le {A : Type} (s : list A) (start stop : Z) :
  len (py_slice s start stop) <= len s.
Proof.
  unfold py_slice, len. rewrite length_firstn, length_skipn. lia.
Qed.

Lemma truthy_length {A : Type} (l : list A) : truthy l = true <-> l <> [].
Proof. destruct l; simpl; split; congruence. Qed.

Lemma py_getitem_head {A : Type} (x : A) (l : list A) : py_getitem (x :: l) 0 = Ok x.
Proof.
  unfold py_getitem, len. simpl length.
  destruct (Z.ltb_spec 0 (Z.of_nat (S (length l)))); [reflexivity | lia].
Qed.

Lemma py_getitem_nil {A : Type} (i : Z) : py_getitem (@nil A) i = Raise IndexError.
Proof.
  unfold py_getitem, len. simpl length. change (Z.of_nat 0) with 0.
  rewrite Z.add_0_r.
  replace (if i <? 0 then i else i) with i by (destruct (i <? 0); reflexivity).
  destruct (Z.leb_spec 0 i), (Z.ltb_spec i 0); simpl; try reflexivity; lia.
Qed.

(** A lookup that succeeds returns an element of the list. *)
Lemma py_getitem_elem_of {A : Type} (l : list A) (i : Z) (x : A) :
  py_getitem l i = Ok x -> x ∈ l.
Proof.
  unfold py_getitem. destruct (_ && _); [| discriminate].
  destruct (l !! _) eqn:Hl; [| discriminate].
  intros [= <-]. eapply list_elem_of_lookup_2. exact Hl.
Qed.

(** ** Chunker *)

Module ChunkerFacts.
Import Chunker.

Lemma iterations_done (n start stride : Z) :
  0 < stride -> n <= start -> iterations n start stride = O.
Proof.
  intros Hs Hn. unfold iterations.
  assert ((n - start + stride - 1) / stride <= 0); [| lia].
  destruct (Z.le_gt_cases 0 (n - start + stride - 1)).
  - rewrite Z.div_small; lia.
  - pose proof (Z.div_lt_upper_bound (n - start + stride - 1) stride 0). lia.
Qed.

Lemma iterations_step (n start stride : Z) :
  0 < stride -> start < n ->
  iterations n start stride = S (iterations n (start + stride) stride).
Proof.
  intros Hs Hn. unfold iterations.
  replace (n - start + stride - 1) with ((n - (start + stride) + stride - 1) + 1 * stride) by lia.
  rewrite Z.div_add by lia.
  assert (0 <= (n - (start + stride) + stride - 1) / stride).
  { apply Z.div_pos; lia. }
  lia.
Qed.

Lemma starts_In (n : nat) (start stride s : Z) :
  s ∈ starts n start stride <->
  exists i : nat, (i < n)%nat /\ s = start + Z.of_nat i * stride.
Proof.
  revert start. induction n as [| n IH]; intros start; simpl.
  - rewrite elem_of_nil. split; [tauto | intros (i & Hi & _); lia].
  - rewrite elem_of_cons, IH. split.
    + intros [-> | (i & Hi & ->)].
      * exists O. split; lia.
      * exists (S i). split; lia.
    + intros (i & Hi & ->). destruct i as [| i].
      * left. lia.
      * right. exists i. split; lia.
Qed.

Lemma starts_sorted (n : nat) (start stride : Z) :
  0 < stride -> StronglySorted Z.lt (starts n start stride).
Proof.
  intros Hs. revert start. induction n as [| n IH]; intros start; simpl.
  - constructor.
  - constructor; [apply IH |].
    apply Forall_forall. intros s Hin.
    apply starts_In in Hin as (i & _ & ->). nia.
Qed.

(** The offsets visited are exactly the multiples of the stride below the
    text length. *)
Lemma starts_iterations_range (n start stride s : Z) :
  0 < stride ->
  s ∈ starts (iterations n start stride) start stride -> start <= s < n.
Proof.
  intros Hs Hin. apply starts_In in Hin as (i & Hi & ->).
  split; [nia |].
  unfold iterations in Hi.
  destruct (Z.le_gt_cases n start) as [Hle | Hgt].
  - rewrite (iterations_done n start stride Hs Hle : Z.to_nat _ = O) in Hi. lia.
  - assert (Z.of_nat i < (n - start + stride - 1) / stride) as Hlt by lia.
    assert (Z.of_nat i + 1 <= (n - start + stride - 1) / stride) as Hle by lia.
    pose proof (Z.mul_div_le (n - start + stride - 1) stride Hs). nia.
Qed.

Lemma iterations_cover (n start stride : Z) :
  0 < stride ->
  n <= start + Z.of_nat (iterations n start stride) * stride \/ n <= start.
Proof.
  intros Hs. unfold iterations.
  destruct (Z.le_gt_cases n start) as [Hle | Hgt]; [now right | left].
  assert (0 <= (n - start + stride - 1) / stride) by (apply Z.div_pos; lia).
  rewrite Z2Nat.id by assumption.
  pose proof (Z.mod_pos_bound (n - start + stride - 1) stride Hs).
  pose proof (Z.div_mod (n - start + stride - 1) stride). nia.
Qed.

(** With a positive stride the loop exits once it has enough fuel for its
    iterations, and returns the kept windows in offset order. *)
Lemma chunk_loop_positive_stride (fuel : nat) (text : str) (chunk_size overlap : Z) :
  0 < chunk_size - overlap ->
  forall start chunks,
    (iterations (len text) start (chunk_size - overlap) <= fuel)%nat ->
    chunk_loop fuel text chunk_size overlap start chunks
    = Some (chunks ++ map (window text chunk_size)
                        (filter (keeps text chunk_size)
                           (starts (iterations (len text) start (chunk_size - overlap))
                              start (chunk_size - overlap)))).
Proof.
  intros Hs. induction fuel as [| fuel IH]; intros start chunks Hfuel.
  - destruct (Z.ltb_spec start (len text)) as [Hlt | Hge].
    + rewrite iterations_step in Hfuel by assumption. lia.
    + simpl. destruct (Z.ltb_spec start (len text)); [lia |].
      rewrite iterations_done by assumption. simpl. now rewrite app_nil_r.
  - simpl. destruct (Z.ltb_spec start (len text)) as [Hlt | Hge].
    + rewrite iterations_step in * by assumption.
      rewrite IH by lia. cbn [starts filter].
      fold (window text chunk_size start). fold (keeps text chunk_size start).
      unfold filter. cbn [list_filter]. fold (@filter Z (list Z) _ (keeps text chunk_size)).
      destruct (keeps text chunk_size start) eqn:Hk.
      * cbn. now rewrite <- app_assoc.
      * reflexivity.
    + rewrite iterations_done by assumption. simpl. now rewrite app_nil_r.
Qed.

(** With a non-positive stride the offset never moves forward: from an
    offset at or before 0 in a non-empty text the loop condition stays true
    for as long as the loop is run. *)
Lemma chunk_loop_stuck (fuel : nat) (text : str) (chunk_size overlap : Z) :
  chunk_size <= overlap -> 0 < len text ->
  forall start chunks,
    start <= 0 -> chunk_loop fuel text chunk_size overlap start chunks = None.
Proof.
  intros Hs Hl. induction fuel as [| fuel IH]; intros start chunks Hstart; simpl.
  - destruct (Z.ltb_spec start (len text)); [reflexivity | lia].
  - destruct (Z.ltb_spec start (len text)); [| lia].
    apply IH. lia.
Qed.

Lemma chunk_text_empty (fuel : nat) (chunk_size overlap : Z) :
  chunk_text fuel [] chunk_size overlap = Some [].
Proof. destruct fuel; reflexivity. Qed.

Lemma window_firstn_skipn (text : str) (chunk_size start : Z) :
  0 <= start -> 0 <= chunk_size ->
  window text chunk_size start
  = firstn (Z.to_nat chunk_size) (skipn (Z.to_nat start) text).
Proof.
  intros Hs Hc. unfold window. rewrite py_slice_nonneg by lia.
  f_equal. lia.
Qed.

Lemma window_length (text : str) (chunk_size start : Z) :
  0 <= start -> 0 <= chunk_size -> len (window text chunk_size start) <= chunk_size.
Proof.
  intros Hs Hc. rewrite window_firstn_skipn by assumption.
  unfold len. rewrite length_firstn. lia.
Qed.

Lemma window_full_length (text : str) (chunk_size start : Z) :
  0 <= start -> 0 <= chunk_size -> start + chunk_size <= len text ->
  len (window text chunk_size start) = chunk_size.
Proof.
  intros Hs Hc Hfull. rewrite window_firstn_skipn by assumption.
  unfold len in *. rewrite length_firstn, length_skipn. lia.
Qed.

(** A window of full length shares its last [overlap] characters with the
    window that starts one stride later. *)
Lemma window_overlap (text : str) (chunk_size overlap start : Z) :
  0 <= start -> 0 < overlap < chunk_size ->
  start + chunk_size <= len text ->
  overlaps_exactly overlap (window text chunk_size start)
    (window text chunk_size (start + (chunk_size - overlap))) = true.
Proof.
  intros Hs Ho Hfull. unfold overlaps_exactly.
  pose proof (window_full_length text chunk_size start Hs ltac:(lia) Hfull) as Hlen.
  unfold len in Hlen.
  replace (length (window text chunk_size start) - Z.to_nat overlap)%nat
    with (Z.to_nat (chunk_size - overlap)) by lia.
  rewrite !window_firstn_skipn by lia.
  apply andb_true_iff. split.
  - apply bool_decide_eq_true.
    rewrite skipn_firstn_comm, firstn_firstn, skipn_skipn.
    f_equal; [lia |]. f_equal. lia.
  - apply Z.eqb_eq. unfold len in *.
    rewrite firstn_firstn, length_firstn, length_skipn. lia.
Qed.

Lemma starts_iterations_next (n start stride : Z) (i : nat) :
  0 < stride -> start + Z.of_nat i * stride < n ->
  (i < iterations n start stride)%nat.
Proof.
  intros Hs Hlt. unfold iterations.
  replace (n - start + stride - 1) with ((n - start - 1) + 1 * stride) by lia.
  rewrite Z.div_add by lia.
  assert (Z.of_nat i <= (n - start - 1) / stride).
  { apply Z.div_le_lower_bound; lia. }
  lia.
Qed.

(** C3 (as the code has it): with [chunk_size > overlap] the call always
    terminates: the loop visits the offsets [0, stride, 2 * stride, ...]
    with [stride = chunk_size - overlap], exactly those below the text
    length, and returns the windows it kept.  With [chunk_size <= overlap]
    nothing is validated: on an empty text the call returns the empty list at
    once, and on every non-empty text the loop never exits and no error is
    raised. *)
Theorem chunk_text_termination (text : str) (chunk_size overlap : Z) :
  (overlap < chunk_size ->
   let stride := chunk_size - overlap in
   let n := iterations (len text) 0 stride in
   (forall fuel, (n <= fuel)%nat ->
      chunk_text fuel text chunk_size overlap
      = Some (map (window text chunk_size)
                (filter (keeps text chunk_size) (starts n 0 stride))))
   /\ (forall s, s ∈ starts n 0 stride -> 0 <= s < len text)
   /\ len text <= Z.of_nat n * stride)
  /\ (chunk_size <= overlap -> text <> [] ->
      ~ terminates text chunk_size overlap)
  /\ (chunk_size <= overlap -> text = [] ->
      forall fuel, chunk_text fuel text chunk_size overlap = Some []).
Proof.
  split; [| split].
  - intros Hlt stride n. subst stride n. split; [| split].
    + intros fuel Hfuel. unfold chunk_text.
      now rewrite chunk_loop_positive_stride by lia.
    + intros s Hs. apply starts_iterations_range in Hs; [exact Hs | lia].
    + pose proof (len_nonneg text).
      destruct (iterations_cover (len text) 0 (chunk_size - overlap)); nia.
  - intros Hle Hne (fuel & r & Hr). unfold chunk_text in Hr.
    rewrite chunk_loop_stuck in Hr; [discriminate | lia | | lia].
    destruct text; [congruence | unfold len; simpl; lia].
  - intros _ -> fuel. apply chunk_text_empty.
Qed.

(** C4 (as the code has it): for [chunk_size > overlap > 0] the returned
    chunks are the non-blank windows [text[s : s + chunk_size]] at the
    offsets [s = 0, stride, 2 * stride, ...] below the text length, in
    increasing offset order; every one has at most [chunk_size] characters;
    and a window of full length [chunk_size] is followed by a window that
    starts with its last [overlap] characters. *)
Theorem chunk_text_chunks (text : str) (chunk_size overlap : Z) :
  0 < overlap < chunk_size ->
  let stride := chunk_size - overlap in
  let offsets := starts (iterations (len text) 0 stride) 0 stride in
  let chunks := map (window text chunk_size) (filter (keeps text chunk_size) offsets) in
  (forall fuel, (iterations (len text) 0 stride <= fuel)%nat ->
     chunk_text fuel text chunk_size overlap = Some chunks)
  /\ StronglySorted Z.lt offsets
  /\ Forall (fun c => len c <= chunk_size) chunks
  /\ (forall s, s ∈ offsets -> s + chunk_size <= len text ->
        s + stride ∈ offsets
        /\ overlaps_exactly overlap (window text chunk_size s)
             (window text chunk_size (s + stride)) = true).
Proof.
  intros Ho stride offsets chunks. subst stride offsets chunks.
  split; [| split; [| split]].
  - intros fuel Hfuel. unfold chunk_text.
    now rewrite chunk_loop_positive_stride by lia.
  - apply starts_sorted. lia.
  - apply Forall_forall. intros c Hc.
    apply list_elem_of_fmap in Hc as (s & -> & Hs).
    apply list_elem_of_filter in Hs as [_ Hs].
    apply starts_iterations_range in Hs; [| lia].
    apply window_length; lia.
  - intros s Hs Hfull.
    pose proof (starts_iterations_range (len text) 0 (chunk_size - overlap) s
                  ltac:(lia) Hs) as Hrange.
    split; [| apply window_overlap; lia].
    apply starts_In in Hs as (i & Hi & ->).
    apply starts_In. exists (S i). split; [| lia].
    apply starts_iterations_next; lia.
Qed.

(** [chunk_text] on the 1200-character document of the specification's
    scenario: offsets 0, 450 and 900. *)
Example chunk_text_1200 :
  option_map (map (fun c : str => len c))
    (chunk_text 3 (repeat "a"%char 1200) 500 50) = Some [500; 500; 300].
Proof. vm_compute. reflexivity. Qed.

Lemma chunk_text_termination_witness :
  chunk_text 4 (lit "abcdefghijk") 4 1
  = Some [lit "abcd"; lit "defg"; lit "ghij"; lit "jk"]
  /\ ~ terminates (lit "a") 50 50
  /\ chunk_text 0 [] 50 50 = Some [].
Proof.
  split; [| split].
  - exact (proj1 (proj1 (chunk_text_termination (lit "abcdefghijk") 4 1)
                    ltac:(lia)) 4%nat ltac:(vm_compute; lia)).
  - exact (proj1 (proj2 (chunk_text_termination (lit "a") 50 50))
             ltac:(lia) ltac:(discriminate)).
  - exact (proj2 (proj2 (chunk_text_termination [] 50 50))
             ltac:(lia) eq_refl 0%nat).
Defined.

Lemma chunk_text_chunks_witness :
  0 < 1 < 4
  /\ chunk_text 4 (lit "abcdefghijk") 4 1
     = Some [lit "abcd"; lit "defg"; lit "ghij"; lit "jk"].
Proof.
  split; [lia |].
  exact (proj1 (chunk_text_chunks (lit "abcdefghijk") 4 1 ltac:(lia))
           4%nat ltac:(vm_compute; lia)).
Defined.

(** C3, as stated, fails: with [chunk_size = overlap = 50] on a one-character
    blank text the call neither returns nor raises. *)
Lemma chunk_text_zero_stride_diverges : ~ terminates (lit " ") 50 50.
Proof.
  intros (fuel & r & Hr). unfold chunk_text in Hr.
  rewrite chunk_loop_stuck in Hr; [discriminate | lia | | lia].
  vm_compute. reflexivity.
Qed.

(** C4, as stated, fails on the overlap of neighbouring chunks: with a
    stride smaller than the overlap several trailing windows are clipped by
    the end of the text, and a dropped blank window leaves two returned
    neighbours that are not adjacent windows. *)
Lemma chunk_text_overlap_not_exact :
  (chunk_text 6 (lit "abcdefghijk") 10 8
   = Some [lit "abcdefghij"; lit "cdefghijk"; lit "efghijk";
           lit "ghijk"; lit "ijk"; lit "k"]
   /\ consecutive_overlap 8
        [lit "abcdefghij"; lit "cdefghijk"; lit "efghijk";
         lit "ghijk"; lit "ijk"; lit "k"] = false)
  /\ (chunk_text 5 (lit "abc" ++ ["010"%char] ++ lit "     xyzw") 4 1
      = Some [lit "abc" ++ ["010"%char]; lit "   x"; lit "xyzw"; lit "w"]
      /\ consecutive_overlap 1
           [lit "abc" ++ ["010"%char]; lit "   x"; lit "xyzw"; lit "w"] = false).
Proof. repeat split; vm_compute; reflexivity. Qed.

End ChunkerFacts.

(** ** The flat index *)

Module FaissFacts.
Section FaissFacts.
Context `{Float32}.
Import Faiss.

Lemma np_array_rows (rows : list (list f32)) (x : ndarray) :
  np_array rows = Ok x ->
  (rows = [] /\ x = Arr1 []) \/ (exists cols, x = Arr2 cols rows).
Proof.
  unfold np_array. destruct rows as [| r rs]; intros Hx.
  - left. split; congruence.
  - right. destruct (forallb _ rs); [| discriminate].
    exists (len r). congruence.
Qed.

Lemma add_ok (index index' : IndexFlatL2) (x : ndarray) :
  add index x = Ok index' ->
  exists rows, x = Arr2 (d index) rows
    /\ d index' = d index /\ xb index' = xb index ++ rows.
Proof.
  unfold add. destruct x as [v | cols rows]; [discriminate |].
  destruct (Z.eqb_spec cols (d index)) as [-> |]; [| discriminate].
  intros [= <-]. exists rows. auto.
Qed.

Lemma add_ntotal (index index' : IndexFlatL2) (cols : Z) (rows : list (list f32)) :
  add index (Arr2 cols rows) = Ok index' ->
  ntotal index' = ntotal index + len rows.
Proof.
  intros Hadd. apply add_ok in Hadd as (rows' & [= _ <-] & _ & Hxb).
  unfold ntotal. rewrite Hxb. apply len_app.
Qed.


(** *** Nearest neighbours *)

Lemma insert_by_distance_perm (x : f32 * Z) (l : list (f32 * Z)) :
  insert_by_distance x l ≡ₚ x :: l.
Proof.
  induction l as [| y l IH]; simpl; [reflexivity |].
  destruct (fle (fst x) (fst y)); [reflexivity |].
  rewrite IH. apply perm_swap.
Qed.

Lemma sort_by_distance_perm (l : list (f32 * Z)) : sort_by_distance l ≡ₚ l.
Proof.
  induction l as [| x l IH]; simpl; [reflexivity |].
  now rewrite insert_by_distance_perm, IH.
Qed.

Lemma insert_by_distance_sorted (x : f32 * Z) (l : list (f32 * Z)) :
  fle_total -> Sorted le_entry l -> Sorted le_entry (insert_by_distance x l).
Proof.
  intros Htot. induction 1 as [| y l Hs IH Hhd]; simpl.
  - repeat constructor.
  - destruct (fle (fst x) (fst y)) eqn:Hxy.
    + constructor; [now constructor |]. now constructor.
    + constructor; [exact IH |].
      assert (le_entry y x) as Hyx.
      { destruct (Htot (fst x) (fst y)) as [Hc | Hc]; [congruence | exact Hc]. }
      destruct Hhd as [| z l Hyz]; simpl.
      * now constructor.
      * destruct (fle (fst x) (fst z)); now constructor.
Qed.

Lemma sort_by_distance_sorted (l : list (f32 * Z)) :
  fle_total -> Sorted le_entry (sort_by_distance l).
Proof.
  intros Htot. induction l as [| x l IH]; simpl; [constructor |].
  now apply insert_by_distance_sorted.
Qed.

Lemma sort_by_distance_strongly_sorted (l : list (f32 * Z)) :
  fle_total -> fle_trans -> StronglySorted le_entry (sort_by_distance l).
Proof.
  intros Htot Htrans. apply Sorted_StronglySorted.
  - intros x y z Hxy Hyz. exact (Htrans _ _ _ Hxy Hyz).
  - now apply sort_by_distance_sorted.
Qed.

(** Every entry of the scan is a stored vector with its position. *)
Lemma scan_entry (index : IndexFlatL2) (q : list f32) (dist : f32) (p : Z) :
  (dist, p) ∈ scan index q <->
  exists i v, xb index !! i = Some v /\ dist = l2 q v /\ p = Z.of_nat i.
Proof.
  unfold scan. rewrite elem_of_lookup_imap. split.
  - intros (i & v & [= -> ->] & Hv). eauto.
  - intros (i & v & Hv & -> & ->). eauto.
Qed.



Lemma knn_length (index : IndexFlatL2) (q : list f32) (k : nat) :
  length (knn index q k) = k.
Proof.
  unfold knn. rewrite length_app, length_replicate, length_take. lia.
Qed.








End FaissFacts.
End FaissFacts.

(** ** FAISSVectorStore *)

Module FaissDbFacts.
Section FaissDbFacts.
Context `{Float32}.
Import faiss_db.

(** A call that returns has stored every embedding, chunk and metadata
    record it was given, in that order. *)
Lemma add_documents_ok (new_chunks : list str) (embeddings : list (list f32))
    (new_metadata : list (gmap string pyval)) (self self' : FAISSVectorStore) :
  add_documents new_chunks embeddings new_metadata self = (Ok tt, self') ->
  Faiss.xb (index self') = Faiss.xb (index self) ++ embeddings
  /\ chunks self' = chunks self ++ new_chunks
  /\ metadata self' = metadata self ++ new_metadata
  /\ dimension self' = dimension self.
Proof.
  unfold add_documents, mbind, Eff_bind, lift, index_add, modify.
  destruct (Faiss.np_array embeddings) as [x |] eqn:Hx; [| discriminate].
  destruct (Faiss.add (index self) x) as [index' |] eqn:Hadd; [| discriminate].
  intros [= <-]. simpl.
  apply FaissFacts.add_ok in Hadd as (rows & -> & _ & Hxb).
  apply FaissFacts.np_array_rows in Hx as [[_ [=]] | (cols & [= _ ->])].
  auto.
Qed.

(** A call that raises has stored nothing. *)
Lemma add_documents_raise (new_chunks : list str) (embeddings : list (list f32))
    (new_metadata : list (gmap string pyval)) (self self' : FAISSVectorStore) (e : exn) :
  add_documents new_chunks embeddings new_metadata self = (Raise e, self') ->
  self' = self.
Proof.
  unfold add_documents, mbind, Eff_bind, lift, index_add, modify.
  destruct (Faiss.np_array embeddings) as [x |]; [| congruence].
  destruct (Faiss.add (index self) x); [discriminate | congruence].
Qed.

Lemma add_documents_aligned (new_chunks : list str) (embeddings : list (list f32))
    (new_metadata : list (gmap string pyval)) (self self' : FAISSVectorStore) :
  len embeddings = len new_chunks -> len new_chunks = len new_metadata ->
  aligned self ->
  add_documents new_chunks embeddings new_metadata self = (Ok tt, self') ->
  aligned self'.
Proof.
  intros He Hm [Hi Hc] Hadd.
  apply add_documents_ok in Hadd as (Hxb & Hchunks & Hmeta & _).
  unfold aligned, Faiss.ntotal in *.
  rewrite Hxb, Hchunks, Hmeta, !len_app. lia.
Qed.





End FaissDbFacts.
End FaissDbFacts.

(** ** VectorStore *)

Module VectorStoreFacts.
Section VectorStoreFacts.
Context `{Float32}.
Import vector_store.

Lemma deref_all_frame (refs : list ref) (w w' : world)
    (r : result (list (gmap string pyval))) :
  deref_all refs w = (r, w') -> w' = w.
Proof.
  revert r w'. induction refs as [| x refs IH]; intros r w'; simpl.
  - now intros [= _ <-].
  - unfold mbind, Eff_bind, deref.
    destruct (heap w !! x); [| now intros [= _ <-]].
    destruct (deref_all refs w) as [[ds | e] w1] eqn:Hrest;
      rewrite (IH _ _ eq_refl); now intros [= _ <-].
Qed.






(** *** Loading *)

(** Unpickled records are new objects, in the order of the file. *)
Lemma alloc_all_ok (records : list (gmap string pyval)) (w : world) :
  alloc_all records w
  = (Ok (seq (length (heap w)) (length records)),
     set_heap (heap w ++ records) w).
Proof.
  revert w. induction records as [| d records IH]; intros w; simpl.
  - unfold mret, Eff_ret, set_heap. rewrite app_nil_r. now destruct w.
  - unfold mbind, Eff_bind, alloc. rewrite IH. simpl.
    unfold mret, Eff_ret, set_heap. simpl.
    rewrite length_app, <- app_assoc. simpl. now rewrite Nat.add_1_r.
Qed.

Lemma deref_all_fresh (old records : list (gmap string pyval)) (w : world) :
  heap w = old ++ records ->
  deref_all (seq (length old) (length records)) w = (Ok records, w).
Proof.
  revert old. induction records as [| d records IH]; intros old Hheap; simpl.
  - reflexivity.
  - unfold mbind, Eff_bind, deref. rewrite Hheap.
    rewrite lookup_app_r, Nat.sub_diag by lia. simpl.
    specialize (IH (old ++ [d])). rewrite length_app in IH. simpl in IH.
    rewrite Nat.add_1_r in IH. rewrite IH; [reflexivity |].
    now rewrite Hheap, <- app_assoc.
Qed.

(** *** Searching *)

Lemma dict_copy_ok (r : ref) (record : gmap string pyval) (w : world) :
  heap w !! r = Some record ->
  dict_copy r w = (Ok (length (heap w)), set_heap (heap w ++ [record]) w).
Proof.
  intros Hr. unfold dict_copy, mbind, Eff_bind, deref, alloc. now rewrite Hr.
Qed.

Lemma dict_copy_raise (r : ref) (w : world) :
  heap w !! r = None -> dict_copy r w = (Raise RuntimeError, w).
Proof.
  intros Hr. unfold dict_copy, mbind, Eff_bind, deref. now rewrite Hr.
Qed.

(** Writing a key of the object allocated last. *)
Lemma dict_setitem_last (old : list (gmap string pyval)) (d : gmap string pyval)
    (key : string) (v : pyval) (w : world) :
  heap w = old ++ [d] ->
  dict_setitem (length old) key v w
  = (Ok tt, set_heap (old ++ [<[key := v]> d]) w).
Proof.
  intros Hheap. unfold dict_setitem, mbind, Eff_bind, deref, modify.
  rewrite Hheap, lookup_app_r, Nat.sub_diag by lia. simpl.
  rewrite Hheap, insert_app_r_alt, Nat.sub_diag by lia. reflexivity.
Qed.

(** The loop writes to objects it allocated itself: the store and the files
    stay as they are, and the heap only grows at its end. *)
Lemma search_loop_frame (distances : list (list f32)) (indices0 : list Z) :
  forall (i : Z) (results : list ref) (w w' : world) (r : result (list ref)),
    search_loop distances i indices0 results w = (r, w') ->
    self w' = self w /\ fs w' = fs w
    /\ exists new, heap w' = heap w ++ new.
Proof.
  induction indices0 as [| idx rest IH]; intros i results w w' r; simpl.
  - intros [= _ <-]. repeat split. exists []. now rewrite app_nil_r.
  - unfold mbind at 1, Eff_bind at 1, gets at 1.
    destruct (idx <? len (metadata (self w))); [| apply IH].
    unfold mbind at 1, Eff_bind at 1, lift at 1.
    destruct (py_getitem (metadata (self w)) idx) as [record |].
    2: { intros [= _ <-]. repeat split. exists []. now rewrite app_nil_r. }
    unfold mbind at 1, Eff_bind at 1.
    destruct (heap w !! record) as [d |] eqn:Hrecord.
    2: { rewrite dict_copy_raise by assumption.
         intros [= _ <-]. repeat split. exists []. now rewrite app_nil_r. }
    rewrite (dict_copy_ok _ d) by assumption.
    unfold mbind at 1, Eff_bind at 1, lift at 1.
    destruct (py_getitem distances 0) as [distances0 |].
    2: { intros [= _ <-]. repeat split. now exists [d]. }
    unfold mbind at 1, Eff_bind at 1, lift at 1.
    destruct (py_getitem distances0 i) as [distance |].
    2: { intros [= _ <-]. repeat split. now exists [d]. }
    unfold mbind at 1, Eff_bind at 1.
    rewrite (dict_setitem_last (heap w) d) by reflexivity.
    intros Hrest. apply IH in Hrest as (Hself & Hfs & new & Hheap).
    repeat split; [exact Hself | exact Hfs |].
    eexists. rewrite Hheap. simpl. now rewrite <- app_assoc.
Qed.

(** When the loop returns, its results are the objects it allocated, each a
    stored record with its distance added. *)
Lemma search_loop_results (distances : list (list f32)) (indices0 : list Z) :
  forall (i : Z) (results found : list ref) (w w' : world),
    allocated w ->
    search_loop distances i indices0 results w = (Ok found, w') ->
    exists new,
      heap w' = heap w ++ new
      /\ found = results ++ seq (length (heap w)) (length new)
      /\ Forall (tagged_copy w) new.
Proof.
  induction indices0 as [| idx rest IH]; intros i results found w w' Hwf; simpl.
  - intros [= <- <-]. exists []. simpl. rewrite !app_nil_r. auto.
  - unfold mbind at 1, Eff_bind at 1, gets at 1.
    destruct (idx <? len (metadata (self w))); [| now apply IH].
    unfold mbind at 1, Eff_bind at 1, lift at 1.
    destruct (py_getitem (metadata (self w)) idx) as [record |] eqn:Hget;
      [| discriminate].
    unfold mbind at 1, Eff_bind at 1.
    destruct (heap w !! record) as [d |] eqn:Hrecord.
    2: { rewrite dict_copy_raise by assumption. discriminate. }
    rewrite (dict_copy_ok _ d) by assumption.
    unfold mbind at 1, Eff_bind at 1, lift at 1.
    destruct (py_getitem distances 0) as [distances0 |]; [| discriminate].
    unfold mbind at 1, Eff_bind at 1, lift at 1.
    destruct (py_getitem distances0 i) as [distance |]; [| discriminate].
    unfold mbind at 1, Eff_bind at 1.
    rewrite (dict_setitem_last (heap w) d) by reflexivity.
    intros Hrest. apply IH in Hrest as (new & Hheap & Hfound & Hnew).
    + exists (<["distance"%string := VFloat distance]> d :: new).
      simpl in Hheap, Hfound. rewrite length_app in Hfound. simpl in Hfound.
      split; [now rewrite Hheap, <- app_assoc |]. split.
      * rewrite Hfound, <- app_assoc. simpl. do 3 f_equal. lia.
      * constructor.
        -- exists record, d, distance. split; [| auto].
           eapply py_getitem_elem_of. exact Hget.
        -- eapply Forall_impl; [exact Hnew |].
           intros d' (r & rec & dist & Hr & Hlook & ->). simpl in Hr, Hlook.
           exists r, rec, dist. split; [exact Hr |]. split; [| reflexivity].
           unfold allocated in Hwf. rewrite Forall_forall in Hwf.
           rewrite lookup_app_l in Hlook by now apply Hwf.
           exact Hlook.
    + unfold allocated in *. simpl. eapply Forall_impl; [exact Hwf |].
      intros r Hr. simpl in Hr. rewrite length_app. simpl. lia.
Qed.










(** C10: [search] is read-only on the store.  Whatever it returns or
    raises, the index and the metadata list are the ones it started with,
    the files are untouched, and every dictionary that existed before the call
    has the contents it had.  When it returns, each result is an object
    allocated during the call: a stored metadata record with the key
    "distance" added to that new object only. *)
Theorem search_read_only (query_vector : Faiss.ndarray) (k : Z) (w w' : world)
    (r : result (list ref)) :
  search query_vector k w = (r, w') ->
  self w' = self w /\ fs w' = fs w
  /\ (forall x d, heap w !! x = Some d -> heap w' !! x = Some d)
  /\ (allocated w -> forall results, r = Ok results ->
      Forall (fun res => (length (heap w) <= res)%nat
                         /\ exists d, heap w' !! res = Some d /\ tagged_copy w d)
        results).
Proof.
  unfold search, mbind, Eff_bind, the_index, lift.
  destruct (index (self w)) as [index |].
  2: { intros [= <- <-]. repeat split; [auto | discriminate]. }
  destruct (Faiss.search index (Faiss.reshape_row query_vector) k)
    as [[distances indices] |].
  2: { intros [= <- <-]. repeat split; [auto | discriminate]. }
  destruct (py_getitem indices 0) as [indices0 |].
  2: { intros [= <- <-]. repeat split; [auto | discriminate]. }
  intros Hloop.
  pose proof (search_loop_frame _ _ _ _ _ _ _ Hloop) as (Hself & Hfs & new & Hheap).
  repeat split; [exact Hself | exact Hfs | |].
  - intros x d Hx. rewrite Hheap. now apply lookup_app_l_Some.
  - intros Hwf results ->.
    apply search_loop_results in Hloop as (new' & Hheap' & -> & Hnew); [| exact Hwf].
    simpl. apply Forall_forall. intros res Hres.
    apply elem_of_seq in Hres as [Hlo Hhi]. split; [exact Hlo |].
    destruct (lookup_lt_is_Some_2 new' (res - length (heap w))) as [d Hd]; [lia |].
    exists d. split.
    + rewrite Hheap', lookup_app_r by lia. exact Hd.
    + rewrite Forall_forall in Hnew. apply Hnew.
      eapply list_elem_of_lookup_2. exact Hd.
Qed.

(** C6 (as the code has it): when the index file is absent the constructor
    yields an empty index of the configured dimension and an empty metadata
    list.  When the index file and the metadata file are present, both are
    deserialized and installed as they are, whatever their entry counts;
    nothing compares them.  A missing metadata file next to an index file
    raises [FileNotFoundError]. *)
Theorem init_loads_or_creates (dim : Z) (index_path metadata_path : string)
    (objects : list (gmap string pyval)) (files : gmap string file) :
  (files !! index_path = None ->
   exists w,
     init dim index_path metadata_path objects files = (Ok tt, w)
     /\ index (self w) = Some (Faiss.new dim)
     /\ metadata (self w) = []
     /\ heap w = objects /\ fs w = files)
  /\ (forall stored records,
        files !! index_path = Some (IndexFile stored) ->
        files !! metadata_path = Some (PickleFile records) ->
        exists w,
          init dim index_path metadata_path objects files = (Ok tt, w)
          /\ index (self w) = Some stored
          /\ len (metadata (self w)) = len records
          /\ deref_all (metadata (self w)) w = (Ok records, w)
          /\ fs w = files)
  /\ (forall stored,
        files !! index_path = Some (IndexFile stored) ->
        files !! metadata_path = None ->
        fst (init dim index_path metadata_path objects files)
        = Raise FileNotFoundError).
Proof.
  unfold init, load_or_create_index, mbind, Eff_bind, gets, modify, lift.
  cbn [self fs vector_store.index_file vector_store.metadata_file vector_store.dimension].
  split; [| split].
  - intros Hnone. rewrite Hnone.
    rewrite bool_decide_eq_false_2 by (intros [x [=]]).
    eexists. split; [reflexivity |]. simpl. auto.
  - intros stored records Hindex Hmeta.
    rewrite bool_decide_eq_true_2 by (rewrite Hindex; eauto).
    unfold read_index, pickle_load. rewrite Hindex, Hmeta.
    rewrite alloc_all_ok. eexists. split; [reflexivity |].
    cbn [self heap fs set_metadata set_heap set_index index metadata].
    repeat split.
    + unfold len. now rewrite length_seq.
    + now apply deref_all_fresh.
  - intros stored Hindex Hmeta.
    rewrite bool_decide_eq_true_2 by (rewrite Hindex; eauto).
    unfold read_index, pickle_load. rewrite Hindex, Hmeta. reflexivity.
Qed.

End VectorStoreFacts.
End VectorStoreFacts.

(** ** Alignment of the index with the document store *)

Module AlignmentFacts.
Import Examples.




End AlignmentFacts.

(** ** Search *)

Module SearchFacts.
Section SearchFacts.
Context `{Float32}.


End SearchFacts.
End SearchFacts.

(** ** Search on concrete stores *)

Module SearchExamples.
Import faiss_db Examples.

Lemma ZFloat_total : @Faiss.fle_total ZFloat.
Proof. intros a b. simpl. lia. Qed.

Lemma ZFloat_trans : @Faiss.fle_trans ZFloat.
Proof. intros a b c. simpl. lia. Qed.

(** The specification's scenario: the query equals the stored vector
    number 2, which comes first with distance 0. *)
Example search_five_vectors :
  search five_vectors [1; 1] 3 = Ok ([[0; 1; 2]], [[2; 4; 0]]).
Proof. vm_compute. reflexivity. Qed.



End SearchExamples.

(** ** Answer generation *)

Module LlmFacts.
Section LlmFacts.
Context `{Float32}.
Import llm.

Lemma generate_answer_log (self : SimpleLLM) (question context : str)
    (log : list event) :
  exists answer,
    generate_answer self question context log
    = (Ok answer, log ++ generator_calls self question context).
Proof.
  unfold generate_answer, generator_calls.
  destruct (generator self) as [g |].
  - unfold try_except, mbind, Eff_bind, emit, modify, lift, mret, Eff_ret.
    destruct (g (prompt_of question context)) as [result | e]; [| eauto].
    destruct (py_getitem result 0) as [first | e]; [| eauto].
    destruct (dict_getitem first "generated_text") as [text | e]; [| eauto].
    destruct (str_strip text); eauto.
  - exists (unavailable context). unfold mret, Eff_ret. now rewrite app_nil_r.
Qed.


(** C9: [generate_answer] returns a string for every question and context
    and never raises.  Without a generator it returns the fallback
    "LLM not available. Retrieved context: " followed by the first 500
    characters of the context; when the generator raises, or returns something
    that is not a non-empty list whose first element maps "generated_text"
    to a string, it returns "Error generating answer. Retrieved context: "
    followed by the first 500 characters of the context; otherwise it returns
    the generated text, stripped. *)
Theorem generate_answer_total (self : SimpleLLM) (question context : str)
    (log : list event) :
  exists answer log',
    generate_answer self question context log = (Ok answer, log')
    /\ (generator self = None ->
        answer = lit "LLM not available. Retrieved context: "
                 ++ firstn 500 context
        /\ log' = log)
    /\ (forall g, generator self = Some g ->
        log' = log ++ [Generator (prompt_of question context)]
        /\ (forall first rest text,
              g (prompt_of question context) = Ok (first :: rest) ->
              first !! "generated_text"%string = Some (VStr text) ->
              answer = strip text)
        /\ ((exists e, g (prompt_of question context) = Raise e)
            \/ g (prompt_of question context) = Ok []
            \/ (exists first rest,
                  g (prompt_of question context) = Ok (first :: rest)
                  /\ forall text, first !! "generated_text"%string <> Some (VStr text)) ->
            answer = lit "Error generating answer. Retrieved context: "
                     ++ firstn 500 context)).
Proof.
  unfold generate_answer. destruct (generator self) as [g |] eqn:Hg.
  - unfold try_except, mbind, Eff_bind, emit, modify, lift, mret, Eff_ret.
    destruct (g (prompt_of question context)) as [[| first rest] | e] eqn:Hrun.
    + rewrite py_getitem_nil.
      eexists _, _. split; [reflexivity |]. split; [discriminate |].
      intros g' [= <-]. split; [reflexivity |]. split.
      * intros first rest text Hrun'. congruence.
      * intros _. unfold degraded. now rewrite py_prefix_firstn by lia.
    + rewrite py_getitem_head. unfold dict_getitem.
      destruct (first !! "generated_text"%string) as [[text | x] |] eqn:Hkey;
        (eexists _, _; split; [reflexivity |]);
        (split; [discriminate |]); intros g' [= <-];
        (split; [reflexivity |]); split.
      * intros first' rest' text' Hrun' Hkey'. rewrite Hrun in Hrun'.
        injection Hrun' as <- <-. congruence.
      * intros [[e He] | [Hnil | (first' & rest' & Hrun' & Hno)]];
          try congruence;
          rewrite Hrun in Hrun'; injection Hrun' as <- <-; now destruct (Hno text).
      * intros first' rest' text' Hrun' Hkey'. rewrite Hrun in Hrun'.
        injection Hrun' as <- <-. congruence.
      * intros _. unfold degraded. now rewrite py_prefix_firstn by lia.
      * intros first' rest' text' Hrun' Hkey'. rewrite Hrun in Hrun'.
        injection Hrun' as <- <-. congruence.
      * intros _. unfold degraded. now rewrite py_prefix_firstn by lia.
    + eexists _, _. split; [reflexivity |]. split; [discriminate |].
      intros g' [= <-]. split; [reflexivity |]. split.
      * intros first rest text Hrun'. congruence.
      * intros _. unfold degraded. now rewrite py_prefix_firstn by lia.
  - eexists _, _. split; [reflexivity |]. split.
    + intros _. unfold unavailable. now rewrite py_prefix_firstn by lia.
    + intros g [=].
Qed.

End LlmFacts.
End LlmFacts.

(** ** The query pipeline *)

Module MainFacts.
Section MainFacts.
Context `{Float32}.
Import main.

(** A position at or past the number of stored chunks is skipped. *)
Lemma retrieve_skips_past_end (vs : faiss_db.FAISSVectorStore)
    (distances : list (list f32)) (i idx : Z) (rest : list Z) (acc : retrieved) :
  len (faiss_db.chunks vs) <= idx ->
  retrieve vs distances i (idx :: rest) acc = retrieve vs distances (i + 1) rest acc.
Proof.
  intros Hidx. simpl.
  destruct (Z.ltb_spec idx (len (faiss_db.chunks vs))); [lia | reflexivity].
Qed.

(** C7: with no chunk stored, [query_documents] returns the canned answer
    with empty sources and scores, raises nothing, and leaves the process
    state as it was: no encoder call and no generation call is made. *)
Theorem query_empty_store (s : app) (q : str) :
  faiss_db.chunks (vector_store s) = [] ->
  query_documents q s
  = (Ok {| question := q;
           answer := lit "No documents uploaded yet. Please upload documents first.";
           sources := []; similarity_scores := [];
           num_chunks_retrieved := None |}, s)
  /\ log (snd (query_documents q s)) = log s.
Proof.
  intros Hempty.
  assert (query_documents q s
          = (Ok {| question := q; answer := no_documents; sources := [];
                   similarity_scores := []; num_chunks_retrieved := None |}, s)) as Hq.
  { unfold query_documents, try_except, query_body, mbind, Eff_bind, gets.
    unfold faiss_db.get_total_chunks. rewrite Hempty. reflexivity. }
  split; [exact Hq | now rewrite Hq].
Qed.


End MainFacts.
End MainFacts.

(** ** The pipeline on concrete stores *)

Module QueryExamples.
Import main Examples.

Lemma generate_answer_total_witness :
  fst (llm.generate_answer no_llm (lit "q") (lit "some context") [])
  = Ok (lit "LLM not available. Retrieved context: some context")
  /\ fst (llm.generate_answer failing_llm (lit "q") (lit "some context") [])
     = Ok (lit "Error generating answer. Retrieved context: some context")
  /\ fst (llm.generate_answer fixed_llm (lit "q") (lit "some context") [])
     = Ok (lit "an answer").
Proof.
  split; [| split].
  - destruct (LlmFacts.generate_answer_total no_llm (lit "q") (lit "some context") [])
      as (answer & log' & -> & Hnone & _).
    destruct (Hnone eq_refl) as [-> _]. reflexivity.
  - destruct (LlmFacts.generate_answer_total failing_llm (lit "q") (lit "some context") [])
      as (answer & log' & -> & _ & Hsome).
    destruct (Hsome _ eq_refl) as (_ & _ & Hfail).
    rewrite Hfail; [reflexivity |]. left. eexists. reflexivity.
  - destruct (LlmFacts.generate_answer_total fixed_llm (lit "q") (lit "some context") [])
      as (answer & log' & -> & _ & Hsome).
    destruct (Hsome _ eq_refl) as (_ & Hgood & _).
    rewrite (Hgood _ _ (lit "  an answer ") eq_refl ltac:(vm_compute; reflexivity)).
    vm_compute. reflexivity.
Defined.

Lemma query_empty_store_witness :
  query_documents (lit "q") (app_of (faiss_db.init 384) fixed_llm)
  = (Ok {| question := lit "q";
           answer := lit "No documents uploaded yet. Please upload documents first.";
           sources := []; similarity_scores := [];
           num_chunks_retrieved := None |},
     app_of (faiss_db.init 384) fixed_llm).
Proof.
  exact (proj1 (MainFacts.query_empty_store
                  (app_of (faiss_db.init 384) fixed_llm) (lit "q") eq_refl)).
Defined.



(** C5 fails on a store that holds fewer than three chunks: with one chunk
    stored the index pads its result with the label [-1], the guard
    [idx < len(chunks)] lets it through, and [chunks[-1]] is the last chunk.
    The single stored chunk is retrieved three times, twice with the padding
    distance. *)
Example query_one_chunk_retrieves_three :
  faiss_db.get_total_chunks one_vector = 1
  /\ faiss_db.search one_vector [1; 1] 3
     = Ok ([[1; FLT_MAX; FLT_MAX]], [[0; -1; -1]])
  /\ retrieve one_vector [[1; FLT_MAX; FLT_MAX]] 0 [0; -1; -1] ([], [], [])
     = Ok ([lit "alpha"; lit "alpha"; lit "alpha"],
           [VStr (lit "a.txt"); VStr (lit "a.txt"); VStr (lit "a.txt")],
           [(1, 2); (1, 1 + FLT_MAX); (1, 1 + FLT_MAX)])
  /\ fst (query_documents (lit "q") (app_of one_vector fixed_llm))
     = Ok {| question := lit "q"; answer := lit "an answer";
             sources := [VStr (lit "a.txt"); VStr (lit "a.txt"); VStr (lit "a.txt")];
             similarity_scores := [(1, 2); (1, 1 + FLT_MAX); (1, 1 + FLT_MAX)];
             num_chunks_retrieved := Some 3 |}.
Proof. repeat split; vm_compute; reflexivity. Qed.

End QueryExamples.

(** ** The persisted store on concrete files *)

Module VectorStoreExamples.
Import vector_store Examples.

Lemma init_loads_or_creates_witness :
  (exists w,
     init 384 index_path metadata_path [] no_files = (Ok tt, w)
     /\ index (self w) = Some (Faiss.new 384) /\ metadata (self w) = [])
  /\ (exists w,
        init 2 index_path metadata_path [] two_record_files = (Ok tt, w)
        /\ deref_all (metadata (self w)) w
           = (Ok [source "a.txt"; source "b.txt"], w)).
Proof.
  split.
  - destruct (proj1 (VectorStoreFacts.init_loads_or_creates
                       384 index_path metadata_path [] no_files)
                ltac:(vm_compute; reflexivity))
      as (w & Hinit & Hindex & Hmeta & _).
    exists w. auto.
  - destruct (proj1 (proj2 (VectorStoreFacts.init_loads_or_creates
                              2 index_path metadata_path [] two_record_files))
                two_vector_index [source "a.txt"; source "b.txt"]
                ltac:(vm_compute; reflexivity) ltac:(vm_compute; reflexivity))
      as (w & Hinit & _ & _ & Hrecords & _).
    exists w. auto.
Defined.

(** C6, as stated, fails: an index file of two vectors next to a metadata
    file of one record loads without an error. *)
Lemma load_accepts_mismatched_counts :
  exists w stored,
    init 384 index_path metadata_path [] mismatched_files = (Ok tt, w)
    /\ index (self w) = Some stored
    /\ Faiss.ntotal stored = 2
    /\ len (metadata (self w)) = 1.
Proof.
  eexists. eexists. split; [vm_compute; reflexivity |].
  split; [reflexivity |]. split; vm_compute; reflexivity.
Qed.

(** A search on the loaded store: the two results are the new objects 2
    and 3; the records 0 and 1 are as they were. *)
Example search_loaded :
  fst (search query_3_3 2 loaded) = Ok [2%nat; 3%nat]
  /\ heap (snd (search query_3_3 2 loaded))
     = [source "a.txt"; source "b.txt";
        <["distance"%string := VFloat 0]> (source "b.txt");
        <["distance"%string := VFloat 18]> (source "a.txt")].
Proof. split; vm_compute; reflexivity. Qed.

(** With [k = 3] on the two stored records the padding label [-1] passes
    the guard [idx < len(self.metadata)] as well: the third result is a copy
    of the last record with the padding distance.  On a store without
    records the same lookup raises [IndexError]. *)
Example search_loaded_padding :
  fst (search query_3_3 3 loaded) = Ok [2%nat; 3%nat; 4%nat]
  /\ heap (snd (search query_3_3 3 loaded)) !! 4%nat
     = Some (<["distance"%string := VFloat FLT_MAX]> (source "b.txt"))
  /\ fst (search query_3_3 3 (snd (init 2 index_path metadata_path [] no_files)))
     = Raise IndexError.
Proof. repeat split; vm_compute; reflexivity. Qed.

Lemma search_read_only_witness :
  self (snd (search query_3_3 2 loaded)) = self loaded
  /\ fs (snd (search query_3_3 2 loaded)) = fs loaded
  /\ heap (snd (search query_3_3 2 loaded)) !! 0%nat
     = Some (source "a.txt").
Proof.
  destruct (VectorStoreFacts.search_read_only query_3_3 2 loaded
              (snd (search query_3_3 2 loaded))
              (fst (search query_3_3 2 loaded))
              ltac:(vm_compute; reflexivity))
    as (Hself & Hfs & Hheap & _).
  split; [exact Hself |]. split; [exact Hfs |].
  apply Hheap. vm_compute. reflexivity.
Defined.

End VectorStoreExamples.

(** * Further properties of the code *)

(** ** Stripping *)

Lemma lstrip_nonempty (s : str) :
  lstrip s <> [] -> exists c, c ∈ s /\ isspace c = false.
Proof.
  induction s as [| c s IH]; simpl; [congruence |].
  destruct (isspace c) eqn:Hc.
  - intros Hne. destruct (IH Hne) as (c' & Hin & Hc'). exists c'.
    split; [now apply elem_of_cons; right | exact Hc'].
  - intros _. exists c. split; [apply elem_of_cons; now left | exact Hc].
Qed.

Lemma lstrip_elem_of (s : str) (c : ascii) : c ∈ lstrip s -> c ∈ s.
Proof.
  induction s as [| c' s IH]; simpl; [auto |].
  destruct (isspace c'); [| auto].
  intros Hin. apply elem_of_cons. right. auto.
Qed.

Lemma lstrip_keeps (s : str) (c : ascii) :
  c ∈ s -> isspace c = false -> c ∈ lstrip s.
Proof.
  intros Hin Hc. induction s as [| c' s IH]; simpl; [exact Hin |].
  destruct (isspace c') eqn:Hc'; [| exact Hin].
  apply elem_of_cons in Hin as [-> | Hin]; [congruence | auto].
Qed.

Lemma lstrip_blank (s : str) : Forall (fun c => isspace c = true) s -> lstrip s = [].
Proof. induction 1 as [| c s Hc _ IH]; simpl; [reflexivity | now rewrite Hc]. Qed.

(** A string is truthy after [strip] exactly when it has a character that
    is not whitespace. *)
Lemma strip_truthy (s : str) :
  truthy (strip s) = true <-> exists c, c ∈ s /\ isspace c = false.
Proof.
  rewrite truthy_length. unfold strip, rstrip. split.
  - intros Hne.
    destruct (lstrip_nonempty (rev (lstrip s))) as (c & Hin & Hc).
    { intros Hnil. apply Hne. now rewrite Hnil. }
    exists c. split; [| exact Hc].
    apply lstrip_elem_of. apply list_elem_of_In, in_rev, list_elem_of_In. exact Hin.
  - intros (c & Hin & Hc) Hnil.
    assert (c ∈ lstrip (rev (lstrip s))) as Hin'.
    { apply lstrip_keeps; [| exact Hc].
      apply list_elem_of_In, in_rev. rewrite rev_involutive.
      apply list_elem_of_In. now apply lstrip_keeps. }
    apply (f_equal (@rev ascii)) in Hnil. rewrite rev_involutive in Hnil.
    simpl in Hnil. rewrite Hnil in Hin'. now apply elem_of_nil in Hin'.
Qed.

Lemma strip_blank (s : str) :
  Forall (fun c => isspace c = true) s -> truthy (strip s) = false.
Proof.
  intros Hblank. destruct (truthy (strip s)) eqn:Ht; [| reflexivity].
  apply strip_truthy in Ht as (c & Hin & Hc).
  rewrite Forall_forall in Hblank. rewrite (Hblank c Hin) in Hc. discriminate.
Qed.

(** A slice is a contiguous part of the sequence. *)
Lemma py_slice_infix {A : Type} (s : list A) (start stop : Z) :
  exists before after, s = before ++ py_slice s start stop ++ after.
Proof.
  unfold py_slice.
  exists (firstn (Z.to_nat (slice_index (len s) start)) s).
  eexists. rewrite firstn_skipn. now rewrite firstn_skipn.
Qed.

(** ** More on the chunker *)

Module ChunkerExtras.
Import Chunker.

(** What the loop appends satisfies every property that the kept windows
    have. *)
Lemma chunk_loop_Forall (P : str -> Prop) (text : str) (chunk_size overlap : Z) :
  (forall start, keeps text chunk_size start = true -> P (window text chunk_size start)) ->
  forall fuel start chunks result,
    Forall P chunks ->
    chunk_loop fuel text chunk_size overlap start chunks = Some result ->
    Forall P result.
Proof.
  intros Hkept. induction fuel as [| fuel IH]; intros start chunks result Hacc; simpl.
  - destruct (start <? len text); [discriminate | now intros [= <-]].
  - destruct (start <? len text); [| now intros [= <-]].
    apply IH. fold (window text chunk_size start).
    destruct (truthy (strip (window text chunk_size start))) eqn:Hk; [| exact Hacc].
    apply Forall_app. split; [exact Hacc |]. repeat constructor. now apply Hkept.
Qed.

(** X1: whatever the parameters, every chunk that [chunk_text] returns is a
    contiguous part of the text and has a character that is not whitespace;
    in particular no returned chunk is empty. *)
Theorem chunk_text_chunks_are_nonblank_substrings (fuel : nat) (text : str)
    (chunk_size overlap : Z) (chunks : list str) :
  chunk_text fuel text chunk_size overlap = Some chunks ->
  Forall (fun chunk =>
            (exists before after, text = before ++ chunk ++ after)
            /\ (exists c, c ∈ chunk /\ isspace c = false)
            /\ chunk <> [])
    chunks.
Proof.
  unfold chunk_text. apply chunk_loop_Forall; [| constructor].
  intros start Hk. unfold keeps in Hk.
  assert (exists c, c ∈ window text chunk_size start /\ isspace c = false) as Hc
    by now apply strip_truthy.
  split; [apply py_slice_infix |]. split; [exact Hc |].
  destruct Hc as (c & Hin & _). intros Hnil. rewrite Hnil in Hin.
  now apply elem_of_nil in Hin.
Qed.

Lemma chunk_text_chunks_are_nonblank_substrings_witness :
  Forall (fun chunk =>
            (exists before after,
               lit "ab  cd" = before ++ chunk ++ after)
            /\ (exists c, c ∈ chunk /\ isspace c = false)
            /\ chunk <> [])
    [lit "ab"; lit "cd"].
Proof.
  apply (chunk_text_chunks_are_nonblank_substrings 3 (lit "ab  cd") 2 0).
  vm_compute. reflexivity.
Defined.

(** The pieces of one stride each, cut at the offsets the loop visits,
    make up the text from the first offset on. *)
Lemma strides_cover (text : str) (stride : Z) (n : nat) :
  0 < stride ->
  forall start,
    0 <= start -> iterations (len text) start stride = n ->
    concat (map (fun s => py_slice text s (s + stride)) (starts n start stride))
    = skipn (Z.to_nat start) text.
Proof.
  intros Hs. induction n as [| n IH]; intros start Hstart Hn; simpl.
  - symmetry. apply skipn_all2.
    destruct (Z.lt_ge_cases start (len text)) as [Hlt |]; [| unfold len in *; lia].
    rewrite ChunkerFacts.iterations_step in Hn by assumption. discriminate.
  - assert (start < len text) as Hlt.
    { destruct (Z.lt_ge_cases start (len text)) as [Hlt | Hge]; [exact Hlt |].
      rewrite ChunkerFacts.iterations_done in Hn by lia. discriminate. }
    rewrite ChunkerFacts.iterations_step in Hn by assumption.
    rewrite IH by lia. rewrite py_slice_nonneg by lia.
    replace (start + stride - start) with stride by lia.
    replace (Z.to_nat (start + stride)) with (Z.to_nat stride + Z.to_nat start)%nat by lia.
    rewrite <- skipn_skipn. apply firstn_skipn.
Qed.

Lemma filter_all {A : Type} (P : A -> Prop) `{!forall x, Decision (P x)} (l : list A) :
  Forall P l -> filter P l = l.
Proof.
  induction 1 as [| x l Hx _ IH]; [reflexivity |].
  now rewrite filter_cons_True, IH.
Qed.

Lemma filter_none {A : Type} (P : A -> Prop) `{!forall x, Decision (P x)} (l : list A) :
  Forall (fun x => ~ P x) l -> filter P l = [].
Proof.
  induction 1 as [| x l Hx _ IH]; [reflexivity |].
  now rewrite filter_cons_False, IH.
Qed.

Lemma starts_length (n : nat) (start stride : Z) : length (starts n start stride) = n.
Proof. revert start. induction n as [| n IH]; intros start; simpl; [| rewrite IH]; reflexivity. Qed.

(** X2: for [chunk_size > overlap >= 0] the windows cover the text without
    a gap: the first [chunk_size - overlap] characters of the successive
    windows, put end to end, are the text.  When no window is blank, these
    windows are the returned chunks, so the text is rebuilt from the chunks,
    and there are [ceil(len(text) / (chunk_size - overlap))] of them. *)
Theorem chunk_text_reconstructs (text : str) (chunk_size overlap : Z) :
  0 <= overlap < chunk_size ->
  let stride := chunk_size - overlap in
  let offsets := starts (iterations (len text) 0 stride) 0 stride in
  concat (map (fun s => firstn (Z.to_nat stride) (window text chunk_size s)) offsets)
  = text
  /\ ((forall s, s ∈ offsets -> keeps text chunk_size s = true) ->
      forall fuel, (iterations (len text) 0 stride <= fuel)%nat ->
      exists chunks,
        chunk_text fuel text chunk_size overlap = Some chunks
        /\ concat (map (firstn (Z.to_nat stride)) chunks) = text
        /\ length chunks = iterations (len text) 0 stride).
Proof.
  intros Ho stride offsets. subst stride offsets.
  assert (concat (map (fun s => firstn (Z.to_nat (chunk_size - overlap))
                                  (window text chunk_size s))
                    (starts (iterations (len text) 0 (chunk_size - overlap)) 0
                       (chunk_size - overlap))) = text) as Hcover.
  { transitivity (skipn (Z.to_nat 0) text); [| reflexivity].
    rewrite <- (strides_cover text (chunk_size - overlap) _ ltac:(lia) 0
                  ltac:(lia) eq_refl).
    f_equal. apply map_ext_in. intros s Hin.
    apply list_elem_of_In, ChunkerFacts.starts_iterations_range in Hin; [| lia].
    rewrite ChunkerFacts.window_firstn_skipn by lia.
    rewrite py_slice_nonneg by lia. rewrite firstn_firstn.
    f_equal. lia. }
  split; [exact Hcover |].
  intros Hkeep fuel Hfuel. eexists. split.
  - unfold chunk_text. now rewrite ChunkerFacts.chunk_loop_positive_stride by lia.
  - simpl. rewrite filter_all.
    + split; [| now rewrite length_map, starts_length].
      rewrite map_map. exact Hcover.
    + apply Forall_forall. intros s Hs. rewrite (Hkeep s Hs). exact I.
Qed.

Lemma chunk_text_reconstructs_witness :
  exists chunks,
    chunk_text 4 (lit "abcdefghijk") 4 1 = Some chunks
    /\ concat (map (firstn 3) chunks) = lit "abcdefghijk"
    /\ length chunks = 4%nat.
Proof.
  exact (proj2 (chunk_text_reconstructs (lit "abcdefghijk") 4 1 ltac:(lia))
           ltac:(intros s Hs; repeat (apply elem_of_cons in Hs as [-> | Hs];
                                       [vm_compute; reflexivity |]);
                 now apply elem_of_nil in Hs)
           4%nat ltac:(vm_compute; lia)).
Defined.

Lemma blank_text_no_window (text : str) (chunk_size overlap : Z) (fuel : nat) :
  Forall (fun c => isspace c = true) text ->
  overlap < chunk_size ->
  (iterations (len text) 0 (chunk_size - overlap) <= fuel)%nat ->
  chunk_text fuel text chunk_size overlap = Some [].
Proof.
  intros Hblank Ho Hfuel. unfold chunk_text.
  rewrite ChunkerFacts.chunk_loop_positive_stride by lia. simpl.
  rewrite filter_none; [reflexivity |].
  apply Forall_forall. intros s _. unfold keeps, window, py_slice.
  rewrite strip_blank; [auto |].
  now apply Forall_take, Forall_drop.
Qed.

(** X3: a text that has only whitespace, the empty text included, gives no
    chunk. *)
Theorem chunk_text_blank (text : str) (chunk_size overlap : Z) (fuel : nat) :
  Forall (fun c => isspace c = true) text ->
  overlap < chunk_size ->
  (iterations (len text) 0 (chunk_size - overlap) <= fuel)%nat ->
  chunk_text fuel text chunk_size overlap = Some [].
Proof. apply blank_text_no_window. Qed.

Lemma chunk_text_blank_witness :
  chunk_text 1 (lit "   ") 500 50 = Some [].
Proof.
  apply chunk_text_blank; [| lia | vm_compute; lia].
  repeat constructor.
Defined.

(** X4: a text that is not blank and no longer than one stride comes back
    as a single chunk, the text itself.  With the default parameters this is
    every document of at most 450 characters. *)
Theorem chunk_text_short (text : str) (chunk_size overlap : Z) (fuel : nat) :
  0 <= overlap < chunk_size ->
  0 < len text <= chunk_size - overlap ->
  (exists c, c ∈ text /\ isspace c = false) ->
  chunk_text (S fuel) text chunk_size overlap = Some [text].
Proof.
  intros Ho Hlen Hc.
  assert (window text chunk_size 0 = text) as Hwin.
  { rewrite ChunkerFacts.window_firstn_skipn by lia. simpl.
    apply firstn_all2. unfold len in Hlen. lia. }
  unfold chunk_text. simpl.
  destruct (Z.ltb_spec 0 (len text)); [| lia].
  fold (window text chunk_size 0). rewrite Hwin.
  rewrite (proj2 (strip_truthy text) Hc). simpl.
  destruct fuel; simpl;
    destruct (Z.ltb_spec (0 + (chunk_size - overlap)) (len text)); try lia; reflexivity.
Qed.

Lemma chunk_text_short_witness :
  chunk_text 1 (lit "a short note") 500 50 = Some [lit "a short note"].
Proof.
  apply chunk_text_short; [lia | vm_compute; split; [reflexivity | discriminate] |].
  exists "a"%char. split; [apply elem_of_cons; now left | reflexivity].
Defined.

End ChunkerExtras.

(** ** More on the flat index *)

Module FaissExtras.
Section FaissExtras.
Context `{Float32}.
Import Faiss.

Lemma np_array_uniform (rows : list (list f32)) (n : Z) :
  rows <> [] -> Forall (fun r => len r = n) rows -> np_array rows = Ok (Arr2 n rows).
Proof.
  intros Hne Hall. destruct rows as [| r rs]; [congruence |].
  apply Forall_cons in Hall as [Hr Hrs]. unfold np_array.
  rewrite (proj2 (forallb_forall _ rs)).
  - now rewrite Hr.
  - intros r' Hin. rewrite Forall_forall in Hrs.
    apply Z.eqb_eq. rewrite Hr. apply Hrs. now apply list_elem_of_In.
Qed.

(** An array that [np_array] builds has rows of one length. *)
Lemma np_array_cols (rows : list (list f32)) (cols : Z) (rows' : list (list f32)) :
  np_array rows = Ok (Arr2 cols rows') ->
  rows' = rows /\ Forall (fun r => len r = cols) rows.
Proof.
  unfold np_array. destruct rows as [| r rs]; [discriminate |].
  destruct (forallb _ rs) eqn:Hall; [| discriminate].
  intros [= <- <-]. split; [reflexivity |].
  constructor; [reflexivity |]. apply Forall_forall. intros r' Hin.
  rewrite forallb_forall in Hall. apply Z.eqb_eq, Hall. now apply list_elem_of_In.
Qed.

(** The first entry of the sorted scan is no farther than any stored
    vector. *)
Lemma sorted_head_nearest (index : IndexFlatL2) (q : list f32) (e : f32 * Z)
    (rest : list (f32 * Z)) (i : nat) (v : list f32) :
  fle_total -> fle_trans ->
  sort_by_distance (scan index q) = e :: rest ->
  xb index !! i = Some v ->
  le_dist (fst e) (l2 q v).
Proof.
  intros Htot Htrans Hsorted Hv.
  pose proof (FaissFacts.sort_by_distance_strongly_sorted (scan index q) Htot Htrans) as Hs.
  rewrite Hsorted in Hs. apply StronglySorted_inv in Hs as [_ Hall].
  assert ((l2 q v, Z.of_nat i) ∈ e :: rest) as Hin.
  { rewrite <- Hsorted, (FaissFacts.sort_by_distance_perm (scan index q)).
    apply FaissFacts.scan_entry. eauto. }
  apply elem_of_cons in Hin as [<- | Hin].
  - simpl. unfold le_dist. destruct (Htot (l2 q v) (l2 q v)); assumption.
  - rewrite Forall_forall in Hall. exact (Hall _ Hin).
Qed.

(** An entry found is no farther than any stored vector that was not
    found. *)
Lemma found_nearer_than_rest (index : IndexFlatL2) (q : list f32) (k : nat)
    (dist : f32) (p : Z) (i : nat) (v : list f32) :
  fle_total -> fle_trans ->
  (dist, p) ∈ found index q k ->
  xb index !! i = Some v ->
  Z.of_nat i ∉ map snd (found index q k) ->
  le_dist dist (l2 q v).
Proof.
  intros Htot Htrans Hfound Hv Hnot.
  pose proof (FaissFacts.sort_by_distance_strongly_sorted (scan index q) Htot Htrans) as Hs.
  rewrite <- (take_drop k (sort_by_distance (scan index q))) in Hs.
  apply (StronglySorted_app_1_elem_of _ _ _ (dist, p) (l2 q v, Z.of_nat i)) in Hs;
    [exact Hs | exact Hfound |].
  assert ((l2 q v, Z.of_nat i) ∈ sort_by_distance (scan index q)) as Hin.
  { rewrite (FaissFacts.sort_by_distance_perm (scan index q)).
    apply FaissFacts.scan_entry. eauto. }
  rewrite <- (take_drop k (sort_by_distance (scan index q))) in Hin.
  apply elem_of_app in Hin as [Hin | Hin]; [| exact Hin].
  exfalso. apply Hnot. apply list_elem_of_fmap.
  exists (l2 q v, Z.of_nat i). split; [reflexivity | exact Hin].
Qed.

End FaissExtras.
End FaissExtras.

(** ** More on list lookups *)

Lemma py_getitem_lookup {A : Type} (l : list A) (i : Z) :
  0 <= i < len l -> py_getitem l i = match l !! Z.to_nat i with
                                     | Some x => Ok x
                                     | None => Raise IndexError
                                     end.
Proof.
  intros Hi. unfold py_getitem.
  destruct (Z.ltb_spec i 0); [lia |].
  destruct (Z.leb_spec 0 i); [| lia].
  destruct (Z.ltb_spec i (len l)); [reflexivity | lia].
Qed.

Lemma py_getitem_app_l {A : Type} (l1 l2 : list A) (i : Z) :
  0 <= i < len l1 -> py_getitem (l1 ++ l2) i = py_getitem l1 i.
Proof.
  intros Hi. rewrite !py_getitem_lookup by (rewrite ?len_app; pose proof (len_nonneg l2); lia).
  rewrite lookup_app_l by (unfold len in Hi; lia). reflexivity.
Qed.

Lemma py_getitem_app_r {A : Type} (l1 l2 : list A) (j : Z) :
  0 <= j < len l2 -> py_getitem (l1 ++ l2) (len l1 + j) = py_getitem l2 j.
Proof.
  intros Hj. pose proof (len_nonneg l1).
  rewrite !py_getitem_lookup by (rewrite ?len_app; lia).
  rewrite lookup_app_r by (unfold len in *; lia).
  replace (Z.to_nat (len l1 + j) - length l1)%nat with (Z.to_nat j)
    by (unfold len in *; lia).
  reflexivity.
Qed.

(** ** More on FAISSVectorStore *)

Module FaissDbExtras.
Section FaissDbExtras.
Context `{Float32}.
Import faiss_db.

(** X5: [add_documents] returns exactly when the embeddings are a non-empty
    list of vectors of the index's dimension, and then appends all three
    arguments.  An empty list of embeddings raises [ValueError], a vector of
    another length raises, and a call that raises has stored nothing: no
    vector, no chunk and no metadata record. *)
Theorem add_documents_outcome (new_chunks : list str) (embeddings : list (list f32))
    (new_metadata : list (gmap string pyval)) (self : FAISSVectorStore) :
  (embeddings <> [] ->
   Forall (fun r => len r = Faiss.d (index self)) embeddings ->
   add_documents new_chunks embeddings new_metadata self
   = (Ok tt,
      {| dimension := dimension self;
         index := {| Faiss.d := Faiss.d (index self);
                     Faiss.xb := Faiss.xb (index self) ++ embeddings |};
         chunks := chunks self ++ new_chunks;
         metadata := metadata self ++ new_metadata |}))
  /\ (embeddings = [] ->
      add_documents new_chunks embeddings new_metadata self = (Raise ValueError, self))
  /\ ((exists r, r ∈ embeddings /\ len r <> Faiss.d (index self)) ->
      exists e, add_documents new_chunks embeddings new_metadata self = (Raise e, self))
  /\ (forall e self',
        add_documents new_chunks embeddings new_metadata self = (Raise e, self') ->
        self' = self).
Proof.
  split; [| split; [| split]].
  - intros Hne Hall.
    unfold add_documents, mbind, Eff_bind, lift, index_add, modify.
    rewrite (FaissExtras.np_array_uniform _ _ Hne Hall). simpl.
    rewrite Z.eqb_refl. reflexivity.
  - intros ->. reflexivity.
  - intros (r & Hin & Hr).
    unfold add_documents, mbind, Eff_bind, lift, index_add, modify.
    destruct (Faiss.np_array embeddings) as [[v | cols rows] |] eqn:Hx; eauto.
    apply FaissExtras.np_array_cols in Hx as [-> Hcols]. simpl.
    destruct (Z.eqb_spec cols (Faiss.d (index self))) as [-> |]; eauto.
    rewrite Forall_forall in Hcols. now destruct Hr; apply Hcols.
  - intros e self'. apply FaissDbFacts.add_documents_raise.
Qed.

(** X6: positions are stable.  After an [add_documents] call that returns,
    [get_total_chunks] has grown by the number of chunks passed, every chunk
    and metadata record stored before is found at the position it had, and
    the [j]-th chunk and record passed are found at the old count plus [j]. *)
Theorem add_documents_positions (new_chunks : list str) (embeddings : list (list f32))
    (new_metadata : list (gmap string pyval)) (self self' : FAISSVectorStore) :
  add_documents new_chunks embeddings new_metadata self = (Ok tt, self') ->
  get_total_chunks self' = get_total_chunks self + len new_chunks
  /\ (forall i, 0 <= i < get_total_chunks self ->
        py_getitem (chunks self') i = py_getitem (chunks self) i)
  /\ (forall i, 0 <= i < len (metadata self) ->
        py_getitem (metadata self') i = py_getitem (metadata self) i)
  /\ (forall j, 0 <= j < len new_chunks ->
        py_getitem (chunks self') (get_total_chunks self + j)
        = py_getitem new_chunks j)
  /\ (forall j, 0 <= j < len new_metadata ->
        py_getitem (metadata self') (len (metadata self) + j)
        = py_getitem new_metadata j).
Proof.
  intros Hadd. apply FaissDbFacts.add_documents_ok in Hadd as (_ & Hc & Hm & _).
  unfold get_total_chunks. rewrite Hc, Hm.
  split; [apply len_app |].
  split; [intros i Hi; now apply py_getitem_app_l |].
  split; [intros i Hi; now apply py_getitem_app_l |].
  split; intros j Hj; now apply py_getitem_app_r.
Qed.

(** What a [search] that returns has returned. *)
Lemma search_inv (self : FAISSVectorStore) (q : list f32) (k : Z)
    (distances : list (list f32)) (labels : list (list Z)) :
  search self q k = Ok (distances, labels) ->
  0 < k /\ len q = Faiss.d (index self)
  /\ distances = [map fst (Faiss.knn (index self) q (Z.to_nat k))]
  /\ labels = [map snd (Faiss.knn (index self) q (Z.to_nat k))].
Proof.
  unfold search, Faiss.search.
  destruct (Z.eqb_spec (len q) (Faiss.d (index self))); [| discriminate].
  destruct (Z.ltb_spec 0 k); [| discriminate].
  simpl. intros [= <- <-]. auto.
Qed.

(** X7: [search] returns nearest neighbours.  The first distance returned
    is no larger than the distance of any stored vector, and every entry that
    is a stored position is no farther from the query than any stored vector
    whose position is not returned. *)
Theorem search_nearest (self : FAISSVectorStore) (q : list f32) (k : Z)
    (distances : list f32) (labels : list Z) :
  Faiss.fle_total -> Faiss.fle_trans ->
  search self q k = Ok ([distances], [labels]) ->
  (forall d0 i v,
     distances !! 0%nat = Some d0 ->
     Faiss.xb (index self) !! i = Some v ->
     Faiss.le_dist d0 (l2 q v))
  /\ (forall j dj p i v,
        distances !! j = Some dj -> labels !! j = Some p -> 0 <= p ->
        Faiss.xb (index self) !! i = Some v ->
        Z.of_nat i ∉ labels ->
        Faiss.le_dist dj (l2 q v)).
Proof.
  intros Htot Htrans Hsearch.
  apply search_inv in Hsearch as (Hk & _ & [= ->] & [= ->]).
  split.
  - intros d0 i v Hd0 Hv. unfold Faiss.knn in Hd0.
    destruct (Faiss.sort_by_distance (Faiss.scan (index self) q)) as [| e rest] eqn:Hs.
    + assert ((l2 q v, Z.of_nat i) ∈ Faiss.sort_by_distance (Faiss.scan (index self) q)) as Hin.
      { rewrite (FaissFacts.sort_by_distance_perm (Faiss.scan (index self) q)).
        apply FaissFacts.scan_entry. eauto. }
      rewrite Hs in Hin. now apply elem_of_nil in Hin.
    + destruct (Z.to_nat k) as [| k'] eqn:Hk'; [lia |].
      simpl in Hd0. injection Hd0 as <-.
      eapply FaissExtras.sorted_head_nearest; eauto.
  - intros j dj p i v Hdj Hp Hpos Hv Hnot.
    change (map fst (Faiss.knn (index self) q (Z.to_nat k)) !! j = Some dj) in Hdj.
    change (map snd (Faiss.knn (index self) q (Z.to_nat k)) !! j = Some p) in Hp.
    change (map ?f ?l) with (f <$> l) in Hdj, Hp, Hnot.
    rewrite list_lookup_fmap in Hdj. rewrite list_lookup_fmap in Hp.
    destruct (Faiss.knn (index self) q (Z.to_nat k) !! j) as [[dj' p'] |] eqn:Hj;
      [| discriminate].
    simpl in Hdj, Hp. injection Hdj as ->. injection Hp as ->.
    apply list_elem_of_lookup_2 in Hj. unfold Faiss.knn in Hj, Hnot.
    apply elem_of_app in Hj as [Hj | Hj].
    + eapply FaissExtras.found_nearer_than_rest; eauto.
      intros Hin. apply Hnot. rewrite fmap_app. apply elem_of_app. now left.
    + apply elem_of_replicate_inv in Hj as [= _ ->]. lia.
Qed.

(** X8: a search in a store whose index is empty is not an error: for a
    query of the index's dimension and [k > 0] it returns [k] entries, all of
    them padding. *)
Theorem search_empty_index (self : FAISSVectorStore) (q : list f32) (k : Z) :
  Faiss.xb (index self) = [] ->
  len q = Faiss.d (index self) -> 0 < k ->
  search self q k
  = Ok ([replicate (Z.to_nat k) FLT_MAX], [replicate (Z.to_nat k) (-1)]).
Proof.
  intros Hempty Hdim Hk. unfold search, Faiss.search.
  rewrite Hdim, Z.eqb_refl. destruct (Z.ltb_spec 0 k); [| lia]. simpl.
  unfold Faiss.knn, Faiss.scan. rewrite Hempty. simpl.
  rewrite firstn_nil. simpl. rewrite Nat.sub_0_r.
  change (map ?f ?l) with (f <$> l). now rewrite !fmap_replicate.
Qed.

End FaissDbExtras.
End FaissDbExtras.

(** ** FAISSVectorStore on concrete stores *)

Module FaissDbExtrasExamples.
Import faiss_db.

Lemma add_documents_outcome_witness :
  fst (@add_documents ZFloat [lit "alpha"] [[1; 2]] [Examples.source "a.txt"]
         Examples.one_vector) = Ok tt
  /\ @add_documents ZFloat [lit "x"] [] [] Examples.one_vector
     = (Raise ValueError, Examples.one_vector)
  /\ exists e,
       @add_documents ZFloat [lit "x"] [[1; 2; 3]] [] Examples.one_vector
       = (Raise e, Examples.one_vector).
Proof.
  split; [| split].
  - rewrite (proj1 (@FaissDbExtras.add_documents_outcome ZFloat [lit "alpha"] [[1; 2]]
                      [Examples.source "a.txt"] Examples.one_vector));
      [reflexivity | discriminate | repeat constructor].
  - exact (proj1 (proj2 (@FaissDbExtras.add_documents_outcome ZFloat [lit "x"] [] [] Examples.one_vector))
             eq_refl).
  - apply (proj1 (proj2 (proj2 (@FaissDbExtras.add_documents_outcome ZFloat [lit "x"] [[1; 2; 3]] []
                                  Examples.one_vector)))).
    exists [1; 2; 3]. split; [apply elem_of_cons; now left | vm_compute; discriminate].
Defined.

Lemma add_documents_positions_witness :
  py_getitem
    (chunks (snd (@add_documents ZFloat [lit "beta"] [[3; 4]] [Examples.source "b.txt"]
                    Examples.one_vector))) 0
  = Ok (lit "alpha")
  /\ py_getitem
       (chunks (snd (@add_documents ZFloat [lit "beta"] [[3; 4]] [Examples.source "b.txt"]
                       Examples.one_vector))) 1
     = Ok (lit "beta").
Proof.
  destruct (@FaissDbExtras.add_documents_positions ZFloat [lit "beta"] [[3; 4]] [Examples.source "b.txt"]
              Examples.one_vector
              (snd (@add_documents ZFloat [lit "beta"] [[3; 4]] [Examples.source "b.txt"]
                      Examples.one_vector))
              ltac:(vm_compute; reflexivity))
    as (_ & Hold & _ & Hnew & _).
  split.
  - exact (Hold 0 ltac:(vm_compute; split; [discriminate | reflexivity])).
  - exact (Hnew 0 ltac:(vm_compute; split; [discriminate | reflexivity])).
Defined.

Lemma search_nearest_witness :
  @search ZFloat Examples.five_vectors [1; 1] 3 = Ok ([[0; 1; 2]], [[2; 4; 0]])
  /\ @Faiss.le_dist ZFloat 0 (l2 [1; 1] [5; 5])
  /\ @Faiss.le_dist ZFloat 2 (l2 [1; 1] [3; 3]).
Proof.
  split; [vm_compute; reflexivity |].
  destruct (@FaissDbExtras.search_nearest ZFloat Examples.five_vectors [1; 1] 3
              [0; 1; 2] [2; 4; 0]
              SearchExamples.ZFloat_total SearchExamples.ZFloat_trans
              ltac:(vm_compute; reflexivity)) as [Hfirst Hrest].
  split.
  - exact (Hfirst 0 1%nat [5; 5] eq_refl eq_refl).
  - refine (Hrest 2%nat 2 0 3%nat [3; 3] eq_refl eq_refl ltac:(lia) eq_refl _).
    intros Hin. repeat (apply elem_of_cons in Hin as [Hin | Hin]; [discriminate Hin |]).
    now apply elem_of_nil in Hin.
Defined.

Lemma search_empty_index_witness :
  @search ZFloat (init 2) [1; 1] 3
  = Ok ([[FLT_MAX; FLT_MAX; FLT_MAX]], [[-1; -1; -1]]).
Proof.
  exact (@FaissDbExtras.search_empty_index ZFloat (@init ZFloat 2) [1; 1] 3 eq_refl eq_refl ltac:(lia)).
Defined.

End FaissDbExtrasExamples.

(** ** The background ingestion *)

Module IngestFacts.
Section IngestFacts.
Context `{Float32}.
Import main main_background.

(** The steps after the chunking, with their exceptions caught: one
    encoder call, and either the store as it was or the store with the
    chunks, their vectors and their source records appended. *)
Lemma store_chunks_outcome (chunks : list str) (filename : str) (s : app) :
  exists s',
    try_except (store_chunks chunks filename) (fun e => mret tt) s = (Ok tt, s')
    /\ embedder s' = embedder s /\ llm_instance s' = llm_instance s
    /\ log s' = log s ++ [Encode chunks]
    /\ (vector_store s' = vector_store s
        \/ exists embeddings,
             embedding.encode (embedder s) chunks = Ok embeddings
             /\ faiss_db.add_documents chunks embeddings
                  (source_records filename chunks) (vector_store s)
                = (Ok tt, vector_store s')).
Proof.
  unfold try_except, store_chunks, mbind, Eff_bind, gets, call, on_store,
    embedding.embed_documents, emit, modify, lift.
  unfold mbind, Eff_bind. simpl.
  destruct (embedding.encode (embedder s) chunks) as [embeddings | e] eqn:Henc; simpl.
  - destruct (faiss_db.add_documents chunks embeddings
                (source_records filename chunks) (vector_store s))
      as [[[] | e] vs'] eqn:Hadd; simpl.
    + eexists. split; [reflexivity |]. simpl. repeat split. right. eauto.
    + apply FaissDbFacts.add_documents_raise in Hadd as ->.
      eexists. split; [reflexivity |]. simpl. repeat split. now left.
  - eexists. split; [reflexivity |]. simpl. repeat split. now left.
Qed.

(** The default stride is 450: one unit of fuel for each character is
    more than enough. *)
Lemma default_fuel (text : str) :
  (Chunker.iterations (len text) 0 (500 - 50) <= length text)%nat.
Proof.
  destruct text as [| c text]; [vm_compute; lia |].
  unfold Chunker.iterations, len.
  assert ((Z.of_nat (length (c :: text)) - 0 + (500 - 50) - 1) / (500 - 50)
          <= Z.of_nat (length (c :: text))); [| lia].
  apply Z.div_le_upper_bound; simpl length; lia.
Qed.

(** X9: an ingestion never raises and always ends.  Given fuel for the
    chunking loop (the length of the text is enough), it returns, leaves the
    embedder and the generator alone, and either leaves the store as it was
    or appends every chunk of the text together with its vector and a record
    [{"source": filename}]; [/health] then reports that many more chunks. *)
Theorem process_document_background_outcome (parser : pdf_parser) (fuel : nat)
    (file_path filename : str) (s : app) :
  (forall text, extracted_text parser file_path = Ok text -> (length text <= fuel)%nat) ->
  exists s',
    process_document_background parser fuel file_path filename s = Some (Ok tt, s')
    /\ embedder s' = embedder s /\ llm_instance s' = llm_instance s
    /\ (vector_store s' = vector_store s
        \/ exists text chunks embeddings,
             extracted_text parser file_path = Ok text
             /\ Chunker.chunk_text fuel text 500 50 = Some chunks
             /\ embedding.encode (embedder s) chunks = Ok embeddings
             /\ faiss_db.chunks (vector_store s')
                = faiss_db.chunks (vector_store s) ++ chunks
             /\ faiss_db.metadata (vector_store s')
                = faiss_db.metadata (vector_store s) ++ source_records filename chunks
             /\ Faiss.xb (faiss_db.index (vector_store s'))
                = Faiss.xb (faiss_db.index (vector_store s)) ++ embeddings
             /\ snd (health_check s') = snd (health_check s) + len chunks).
Proof.
  intros Hfuel. unfold process_document_background.
  destruct (extracted_text parser file_path) as [text | e] eqn:Htext.
  2: { exists s. repeat split. now left. }
  specialize (Hfuel text eq_refl).
  unfold Chunker.chunk_text at 1.
  rewrite ChunkerFacts.chunk_loop_positive_stride
    by (try lia; pose proof (default_fuel text); lia).
  rewrite app_nil_l.
  destruct (store_chunks_outcome
              (map (Chunker.window text 500)
                 (filter (Chunker.keeps text 500)
                    (Chunker.starts (Chunker.iterations (len text) 0 (500 - 50)) 0
                       (500 - 50)))) filename s)
    as (s' & Hrun & Hemb & Hllm & _ & Hstore).
  exists s'. split; [now rewrite Hrun |]. split; [exact Hemb |]. split; [exact Hllm |].
  destruct Hstore as [Hsame | (embeddings & Henc & Hadd)]; [now left | right].
  eexists text, _, embeddings. split; [reflexivity |]. split.
  { unfold Chunker.chunk_text.
    rewrite ChunkerFacts.chunk_loop_positive_stride
      by (try lia; pose proof (default_fuel text); lia).
    reflexivity. }
  split; [exact Henc |].
  apply FaissDbFacts.add_documents_ok in Hadd as (Hxb & Hchunks & Hmeta & _).
  repeat split; try assumption.
  unfold health_check, faiss_db.get_total_chunks. simpl.
  rewrite Hchunks. apply len_app.
Qed.

(** X10: ingestion keeps the store aligned.  If the encoder returns one
    vector for each text, then whatever the document and whether or not a step
    fails, a store with as many vectors as chunks and metadata records is again
    such a store afterwards. *)
Theorem process_document_background_aligned (parser : pdf_parser) (fuel : nat)
    (file_path filename : str) (s s' : app) (r : result unit) :
  faiss_db.aligned (vector_store s) ->
  one_vector_per_text (embedder s) ->
  process_document_background parser fuel file_path filename s = Some (r, s') ->
  faiss_db.aligned (vector_store s').
Proof.
  intros Hal Hone. unfold process_document_background.
  destruct (extracted_text parser file_path) as [text | e]; [| now intros [= _ <-]].
  destruct (Chunker.chunk_text fuel text 500 50) as [chunks |]; [| discriminate].
  destruct (store_chunks_outcome chunks filename s)
    as (s1 & Hrun & _ & _ & _ & Hstore).
  rewrite Hrun. intros [= _ <-].
  destruct Hstore as [-> | (embeddings & Henc & Hadd)]; [exact Hal |].
  eapply FaissDbFacts.add_documents_aligned; [| | exact Hal | exact Hadd].
  - now apply Hone.
  - unfold source_records, len. now rewrite length_map.
Qed.

(** X11: a document whose text is blank, or empty, adds nothing: the
    chunker returns no chunk, the encoder gives no vector, [add_documents]
    refuses the empty array, and the exception is swallowed. *)
Theorem process_document_background_blank (parser : pdf_parser) (fuel : nat)
    (file_path filename text : str) (s : app) :
  extracted_text parser file_path = Ok text ->
  Forall (fun c => isspace c = true) text ->
  (length text <= fuel)%nat ->
  one_vector_per_text (embedder s) ->
  exists s',
    process_document_background parser fuel file_path filename s = Some (Ok tt, s')
    /\ vector_store s' = vector_store s.
Proof.
  intros Htext Hblank Hfuel Hone. unfold process_document_background.
  rewrite Htext.
  rewrite ChunkerExtras.blank_text_no_window
    by (try assumption; try lia; pose proof (default_fuel text); lia).
  destruct (store_chunks_outcome [] filename s)
    as (s' & Hrun & _ & _ & _ & Hstore).
  exists s'. split; [now rewrite Hrun |].
  destruct Hstore as [Hsame | (embeddings & Henc & Hadd)]; [exact Hsame |].
  apply Hone in Henc. destruct embeddings; [| discriminate Henc].
  discriminate Hadd.
Qed.

End IngestFacts.
End IngestFacts.

(** ** Ingestion of concrete documents *)

Module IngestExamples.
Import main main_background BackgroundExamples.

Lemma constant_encoder_one_vector_per_text :
  one_vector_per_text Examples.constant_encoder.
Proof.
  intros texts vectors [= <-]. unfold len. now rewrite length_map.
Qed.

Lemma process_document_background_outcome_witness :
  exists s',
    process_document_background notes_parser 10 notes_path notes_name serving
    = Some (Ok tt, s')
    /\ embedder s' = embedder serving /\ llm_instance s' = llm_instance serving.
Proof.
  destruct (IngestFacts.process_document_background_outcome
              notes_parser 10 notes_path notes_name serving
              ltac:(intros text [= <-]; vm_compute; lia))
    as (s' & Hrun & Hemb & Hllm & _).
  exists s'. auto.
Defined.

Lemma process_document_background_aligned_witness :
  faiss_db.aligned
    (vector_store
       (snd (default (Ok tt, serving)
               (process_document_background notes_parser 10 notes_path
                  notes_name serving)))).
Proof.
  apply (IngestFacts.process_document_background_aligned
           notes_parser 10 notes_path notes_name serving _ (Ok tt)).
  - split; reflexivity.
  - exact constant_encoder_one_vector_per_text.
  - vm_compute. reflexivity.
Defined.

Lemma process_document_background_blank_witness :
  exists s',
    process_document_background blank_parser 3 notes_path notes_name serving
    = Some (Ok tt, s')
    /\ vector_store s' = vector_store serving.
Proof.
  apply (IngestFacts.process_document_background_blank
           blank_parser 3 notes_path notes_name (lit "   ") serving).
  - reflexivity.
  - repeat constructor.
  - vm_compute. lia.
  - exact constant_encoder_one_vector_per_text.
Defined.

(** The ingested chunk is stored after the one that was there, with the
    file name as its source. *)
Example process_notes :
  option_map (fun out => (faiss_db.chunks (vector_store (snd out)),
                          faiss_db.metadata (vector_store (snd out))))
    (process_document_background notes_parser 10 notes_path notes_name serving)
  = Some ([lit "alpha"; lit "alpha beta"],
          [Examples.source "a.txt"; Examples.source "notes.txt"]).
Proof. vm_compute. reflexivity. Qed.

End IngestExamples.

(** ** More on the query pipeline *)

Module MainExtras.
Section MainExtras.
Context `{Float32}.
Import main.

(** The loop adds to the three lists together, at most one entry for each
    index. *)
Lemma retrieve_lengths (vs : faiss_db.FAISSVectorStore) (distances : list (list f32))
    (indices0 : list Z) :
  forall (i : Z) (a a' : list str) (b b' : list pyval) (c c' : list pyfloat),
    retrieve vs distances i indices0 (a, b, c) = Ok (a', b', c') ->
    exists n : nat,
      (n <= length indices0)%nat
      /\ length a' = (length a + n)%nat
      /\ length b' = (length b + n)%nat
      /\ length c' = (length c + n)%nat.
Proof.
  induction indices0 as [| idx rest IH]; intros i a a' b b' c c'; simpl.
  - intros [= <- <- <-]. exists O. repeat split; lia.
  - destruct (idx <? len (faiss_db.chunks vs)).
    + unfold mbind, result_bind.
      destruct (py_getitem (faiss_db.chunks vs) idx); [| discriminate].
      destruct (py_getitem (faiss_db.metadata vs) idx); [| discriminate].
      destruct (py_getitem distances 0); [| discriminate].
      destruct (py_getitem _ i); [| discriminate].
      intros Hrest. apply IH in Hrest as (n & Hn & Ha & Hb & Hc).
      rewrite length_app in Ha, Hb, Hc. simpl in Ha, Hb, Hc.
      exists (S n). repeat split; lia.
    + intros Hrest. apply IH in Hrest as (n & Hn & Ha & Hb & Hc).
      exists n. repeat split; try assumption. lia.
Qed.

(** X12: a query reads the store and never writes it.  Whatever
    [query_documents] returns or raises, the embedder, the vector store and
    the generator are the ones it started with; the only exception that leaves
    it is an HTTP 500 carrying the cause; and it makes at most one encoder
    call, for the question alone, followed by at most one [generate_answer]
    call. *)
Theorem query_documents_read_only (q : str) (s s' : app) (r : result response) :
  query_documents q s = (r, s') ->
  embedder s' = embedder s /\ vector_store s' = vector_store s
  /\ llm_instance s' = llm_instance s
  /\ (forall e, r = Raise e -> exists cause, e = HTTPException 500 cause)
  /\ (log s' = log s
      \/ log s' = log s ++ [Encode [q]]
      \/ exists context,
           log s' = log s ++ [Encode [q]; GenerateAnswer q context]
                    ++ llm.generator_calls (llm_instance s) q context).
Proof.
  unfold query_documents, try_except, query_body.
  unfold mbind at 1, Eff_bind at 1, gets at 1.
  destruct (faiss_db.get_total_chunks (vector_store s) =? 0).
  { intros [= <- <-]. repeat split; [discriminate | now left]. }
  unfold mbind, Eff_bind, gets, call, embedding.embed_query, emit, modify, lift.
  unfold mbind, Eff_bind. simpl log.
  destruct (embedding.encode (embedder s) [q]) as [rows | e].
  2: { intros [= <- <-]. simpl.
       repeat split; [intros e' [= <-]; eauto | right; now left]. }
  destruct (py_getitem rows 0) as [v | e].
  2: { intros [= <- <-]. simpl.
       repeat split; [intros e' [= <-]; eauto | right; now left]. }
  simpl.
  destruct (faiss_db.search (vector_store s) v 3) as [[distances indices] | e].
  2: { intros [= <- <-]. simpl.
       repeat split; [intros e' [= <-]; eauto | right; now left]. }
  simpl.
  destruct (py_getitem indices 0) as [indices0 | e].
  2: { intros [= <- <-]. simpl.
       repeat split; [intros e' [= <-]; eauto | right; now left]. }
  destruct (retrieve (vector_store s) distances 0 indices0 ([], [], []))
    as [[[chunks srcs] scores] | e].
  2: { intros [= <- <-]. simpl.
       repeat split; [intros e' [= <-]; eauto | right; now left]. }
  simpl.
  destruct (LlmFacts.generate_answer_log (llm_instance s) q
              (join ("010"%char :: nl) chunks)
              ((log s ++ [Encode [q]])
               ++ [GenerateAnswer q (join ("010"%char :: nl) chunks)]))
    as [text ->].
  intros [= <- <-]. simpl.
  repeat split; [discriminate |]. right. right.
  exists (join ("010"%char :: nl) chunks). now rewrite <- !app_assoc.
Qed.

(** X13: the lists of an answer go together.  When a query on a non-empty
    store is answered, the sources and the scores have one length, which is
    the number of chunks reported, and that number is at most 3. *)
Theorem query_documents_response_shape (q : str) (s s' : app) (resp : response) :
  faiss_db.chunks (vector_store s) <> [] ->
  query_documents q s = (Ok resp, s') ->
  exists n,
    num_chunks_retrieved resp = Some n
    /\ len (sources resp) = n /\ len (similarity_scores resp) = n
    /\ 0 <= n <= 3.
Proof.
  intros Hne.
  assert ((faiss_db.get_total_chunks (vector_store s) =? 0) = false) as Hcount.
  { apply Z.eqb_neq. unfold faiss_db.get_total_chunks, len.
    destruct (faiss_db.chunks (vector_store s)); [congruence | simpl; lia]. }
  unfold query_documents, try_except, query_body.
  unfold mbind at 1, Eff_bind at 1, gets at 1. rewrite Hcount.
  unfold mbind, Eff_bind, gets, call, embedding.embed_query, emit, modify, lift.
  unfold mbind, Eff_bind. simpl log.
  destruct (embedding.encode (embedder s) [q]) as [rows | e]; [| discriminate].
  destruct (py_getitem rows 0) as [v | e]; [| discriminate].
  simpl.
  destruct (faiss_db.search (vector_store s) v 3) as [[distances indices] | e] eqn:Hs;
    [| discriminate].
  simpl.
  destruct (py_getitem indices 0) as [indices0 | e] eqn:Hrow; [| discriminate].
  destruct (retrieve (vector_store s) distances 0 indices0 ([], [], []))
    as [[[chunks srcs] scores] | e] eqn:Hret; [| discriminate].
  simpl.
  destruct (LlmFacts.generate_answer_log (llm_instance s) q
              (join ("010"%char :: nl) chunks)
              ((log s ++ [Encode [q]])
               ++ [GenerateAnswer q (join ("010"%char :: nl) chunks)]))
    as [text ->].
  intros [= <- _]. simpl.
  apply FaissDbExtras.search_inv in Hs as (_ & _ & _ & ->).
  rewrite py_getitem_head in Hrow. injection Hrow as <-.
  apply retrieve_lengths in Hret as (n & Hn & Ha & Hb & Hc).
  rewrite length_map, FaissFacts.knn_length in Hn. simpl in Ha, Hb, Hc.
  exists (len chunks). unfold len. rewrite Ha, Hb, Hc. repeat split; lia.
Qed.

(** X14: when the embedding fails, nothing is generated.  If the encoder
    raises, or returns no vector, a query on a non-empty store ends in an
    HTTP 500 carrying that failure, after the one encoder call and without any
    call of [generate_answer]. *)
Theorem query_documents_embedding_failure (q : str) (s : app) :
  faiss_db.chunks (vector_store s) <> [] ->
  (forall e, embedding.encode (embedder s) [q] = Raise e ->
     query_documents q s
     = (Raise (HTTPException 500 e), set_log (log s ++ [Encode [q]]) s))
  /\ (embedding.encode (embedder s) [q] = Ok [] ->
      query_documents q s
      = (Raise (HTTPException 500 IndexError), set_log (log s ++ [Encode [q]]) s)).
Proof.
  intros Hne.
  assert ((faiss_db.get_total_chunks (vector_store s) =? 0) = false) as Hcount.
  { apply Z.eqb_neq. unfold faiss_db.get_total_chunks, len.
    destruct (faiss_db.chunks (vector_store s)); [congruence | simpl; lia]. }
  split.
  - intros e Henc. unfold query_documents, try_except, query_body.
    unfold mbind at 1, Eff_bind at 1, gets at 1. rewrite Hcount.
    unfold mbind, Eff_bind, gets, call, embedding.embed_query, emit, modify, lift.
    unfold mbind, Eff_bind. simpl log. now rewrite Henc.
  - intros Henc. unfold query_documents, try_except, query_body.
    unfold mbind at 1, Eff_bind at 1, gets at 1. rewrite Hcount.
    unfold mbind, Eff_bind, gets, call, embedding.embed_query, emit, modify, lift.
    unfold mbind, Eff_bind. simpl log. now rewrite Henc, py_getitem_nil.
Qed.




End MainExtras.
End MainExtras.

(** ** Queries on concrete stores *)

Module MainExtrasExamples.
Import main Examples.

Lemma query_documents_read_only_witness :
  vector_store (snd (query_documents (lit "q") (app_of five_vectors fixed_llm)))
  = five_vectors.
Proof.
  exact (proj1 (proj2
    (@MainExtras.query_documents_read_only ZFloat (lit "q")
       (app_of five_vectors fixed_llm)
       (snd (query_documents (lit "q") (app_of five_vectors fixed_llm)))
       (fst (query_documents (lit "q") (app_of five_vectors fixed_llm)))
       ltac:(vm_compute; reflexivity)))).
Defined.

Lemma query_documents_response_shape_witness :
  exists resp n,
    fst (query_documents (lit "q") (app_of one_vector fixed_llm)) = Ok resp
    /\ num_chunks_retrieved resp = Some n
    /\ len (sources resp) = n /\ len (similarity_scores resp) = n
    /\ 0 <= n <= 3.
Proof.
  eexists.
  destruct (@MainExtras.query_documents_response_shape ZFloat (lit "q")
              (app_of one_vector fixed_llm) _ _
              ltac:(discriminate) ltac:(vm_compute; reflexivity))
    as (n & Hn).
  exists n. split; [reflexivity | exact Hn].
Defined.

Lemma query_documents_embedding_failure_witness :
  fst (query_documents (lit "q") BackgroundExamples.encoder_down)
  = Raise (HTTPException 500 (ModelError "down")).
Proof.
  rewrite (proj1 (@MainExtras.query_documents_embedding_failure ZFloat (lit "q")
                    BackgroundExamples.encoder_down ltac:(discriminate))
             (ModelError "down") eq_refl).
  reflexivity.
Defined.


End MainExtrasExamples.

(** ** More on VectorStore *)

Module VectorStoreExtras.
Section VectorStoreExtras.
Context `{Float32}.
Import vector_store.

(** Reading the records depends on the heap only. *)
Lemma deref_all_same_heap (refs : list ref) (w1 w2 : world)
    (r : result (list (gmap string pyval))) :
  heap w1 = heap w2 -> deref_all refs w1 = (r, w1) -> deref_all refs w2 = (r, w2).
Proof.
  intros Hheap. revert r. induction refs as [| x refs IH]; intros r; simpl.
  - now intros [= <-].
  - unfold mbind, Eff_bind, deref. rewrite <- Hheap.
    destruct (heap w1 !! x); [| now intros [= <-]].
    destruct (deref_all refs w1) as [[ds | e] w] eqn:Hrest.
    + pose proof (VectorStoreFacts.deref_all_frame _ _ _ _ Hrest) as ->.
      rewrite (IH _ eq_refl). now intros [= <-].
    + pose proof (VectorStoreFacts.deref_all_frame _ _ _ _ Hrest) as ->.
      rewrite (IH _ eq_refl). now intros [= <-].
Qed.

Lemma deref_all_result (refs : list ref) (w : world) :
  deref_all refs w = (fst (deref_all refs w), w).
Proof.
  destruct (deref_all refs w) as [r w'] eqn:Hd.
  now rewrite (VectorStoreFacts.deref_all_frame _ _ _ _ Hd).
Qed.

(** What [save_index] writes when it returns. *)
Lemma save_index_ok (w w' : world) :
  save_index w = (Ok tt, w') ->
  exists stored records,
    index (self w) = Some stored
    /\ deref_all (metadata (self w)) w = (Ok records, w)
    /\ w' = set_fs (<[metadata_file (self w) := PickleFile records]>
                      (<[index_file (self w) := IndexFile stored]> (fs w))) w.
Proof.
  unfold save_index, mbind, Eff_bind, gets, the_index, modify.
  destruct (index (self w)) as [stored |]; [| discriminate].
  rewrite (deref_all_same_heap (metadata (self w)) w
             (set_fs (<[index_file (self w) := IndexFile stored]> (fs w)) w)
             _ eq_refl (deref_all_result _ _)).
  destruct (fst (deref_all (metadata (self w)) w)) as [records | e] eqn:Hd;
    [| discriminate].
  intros [= <-]. exists stored, records. repeat split.
  rewrite deref_all_result. now rewrite Hd.
Qed.

(** Loading two present files installs what they hold. *)
Lemma init_loads (dim : Z) (index_path metadata_path : string)
    (objects : list (gmap string pyval)) (files : gmap string file)
    (stored : Faiss.IndexFlatL2) (records : list (gmap string pyval)) :
  files !! index_path = Some (IndexFile stored) ->
  files !! metadata_path = Some (PickleFile records) ->
  exists w,
    init dim index_path metadata_path objects files = (Ok tt, w)
    /\ index (self w) = Some stored
    /\ deref_all (metadata (self w)) w = (Ok records, w)
    /\ fs w = files.
Proof.
  intros Hindex Hmeta.
  unfold init, load_or_create_index, mbind, Eff_bind, gets, modify, lift.
  cbn [self fs vector_store.index_file vector_store.metadata_file].
  rewrite bool_decide_eq_true_2 by (rewrite Hindex; eauto).
  unfold read_index, pickle_load. rewrite Hindex, Hmeta.
  rewrite VectorStoreFacts.alloc_all_ok. eexists. split; [reflexivity |].
  cbn [self heap fs set_metadata set_heap set_index index metadata].
  repeat split. now apply VectorStoreFacts.deref_all_fresh.
Qed.

(** X16: what [add_vectors] saves can be loaded again.  After a call that
    returns, on a store whose two paths differ, a new [VectorStore] built on
    the same paths (with any configured dimension) holds the same index and
    metadata records with the same contents in the same order. *)
Theorem add_vectors_then_reload (vectors : Faiss.ndarray) (metadata' : list ref)
    (w w' : world) (dim : Z) (objects : list (gmap string pyval)) :
  index_file (self w) <> metadata_file (self w) ->
  add_vectors vectors metadata' w = (Ok tt, w') ->
  exists stored records reloaded,
    index (self w') = Some stored
    /\ deref_all (metadata (self w')) w' = (Ok records, w')
    /\ init dim (index_file (self w)) (metadata_file (self w)) objects (fs w')
       = (Ok tt, reloaded)
    /\ index (self reloaded) = Some stored
    /\ deref_all (metadata (self reloaded)) reloaded = (Ok records, reloaded).
Proof.
  intros Hpaths.
  unfold add_vectors, mbind, Eff_bind, gets, the_index, modify, lift.
  destruct (index (self w)) as [index0 |]; [| discriminate].
  destruct (Faiss.add index0 vectors) as [index1 |]; [| discriminate].
  destruct (save_index _) as [[[] | e] w1] eqn:Hsave; [| discriminate].
  intros [= <-].
  apply save_index_ok in Hsave as (stored & records & Hstored & Hrecords & Hw1).
  subst w1.
  cbn [self set_fs set_metadata set_index index metadata index_file metadata_file fs]
    in *.
  destruct (init_loads dim (index_file (self w)) (metadata_file (self w)) objects
              (<[metadata_file (self w) := PickleFile records]>
                 (<[index_file (self w) := IndexFile stored]> (fs w)))
              stored records)
    as (reloaded & Hinit & Hindex & Hderef & _).
  { rewrite lookup_insert_ne by congruence. apply lookup_insert_eq. }
  { apply lookup_insert_eq. }
  exists stored, records, reloaded. repeat split; try assumption.
  eapply deref_all_same_heap; [| exact Hrecords]. reflexivity.
Qed.

(** X17: a search in a store that holds nothing raises.  With an empty
    index and an empty metadata list, as in a store that was just created,
    every label is the padding label [-1]; it passes the guard, and the lookup
    [self.metadata[-1]] raises [IndexError].  Nothing is changed. *)
Theorem search_empty_store (query_vector : Faiss.ndarray) (k : Z) (w : world)
    (stored : Faiss.IndexFlatL2) :
  index (self w) = Some stored -> Faiss.xb stored = [] ->
  metadata (self w) = [] ->
  len (Faiss.flat query_vector) = Faiss.d stored -> 0 < k ->
  search query_vector k w = (Raise IndexError, w).
Proof.
  intros Hindex Hxb Hmeta Hdim Hk.
  unfold search, mbind, Eff_bind, the_index, lift. rewrite Hindex.
  unfold Faiss.search, Faiss.reshape_row. rewrite Hdim, Z.eqb_refl.
  destruct (Z.ltb_spec 0 k); [| lia]. simpl negb. cbv iota.
  cbn beta. cbn [map]. rewrite py_getitem_head.
  unfold Faiss.knn, Faiss.scan. rewrite Hxb. simpl imap. simpl Faiss.sort_by_distance.
  rewrite firstn_nil. simpl length. rewrite Nat.sub_0_r. simpl app.
  destruct (Z.to_nat k) as [| n] eqn:Hn; [lia |].
  simpl. unfold mbind, Eff_bind, gets, lift. rewrite Hmeta. simpl.
  reflexivity.
Qed.





End VectorStoreExtras.
End VectorStoreExtras.

(** ** VectorStore on concrete files *)

Module VectorStoreExtrasExamples.
Import vector_store Examples BackgroundExamples.

Lemma add_vectors_then_reload_witness :
  exists stored records reloaded,
    index (self grown) = Some stored
    /\ deref_all (metadata (self grown)) grown = (Ok records, grown)
    /\ init 384 index_path metadata_path [] (fs grown) = (Ok tt, reloaded)
    /\ index (self reloaded) = Some stored
    /\ deref_all (metadata (self reloaded)) reloaded = (Ok records, reloaded).
Proof.
  exact (@VectorStoreExtras.add_vectors_then_reload ZFloat
           (Faiss.Arr2 2 [[7; 7]]) [0%nat] loaded grown 384 []
           ltac:(discriminate) ltac:(vm_compute; reflexivity)).
Defined.

Lemma search_empty_store_witness :
  search query_3_3 3 (snd (init 2 index_path metadata_path [] no_files))
  = (Raise IndexError, snd (init 2 index_path metadata_path [] no_files)).
Proof.
  exact (@VectorStoreExtras.search_empty_store ZFloat query_3_3 3
           (snd (init 2 index_path metadata_path [] no_files)) (Faiss.new 2)
           eq_refl eq_refl eq_refl eq_refl ltac:(lia)).
Defined.


End VectorStoreExtrasExamples.

(** ** The two models behind their ports *)

Module EmbeddingExtras.
Section EmbeddingExtras.
Context `{Float32}.
Import embedding.

(** X19: [embed_query] is [embed_documents] on the one-element list, then
    its first vector.  Both make the same single encoder call; the query
    embedding is the first vector that [embed_documents] returns for the
    query alone, an exception of the encoder comes out unchanged, and an
    encoder that returns no vector makes [embed_query] raise [IndexError]
    where [embed_documents] returns the empty list. *)
Theorem embed_query_first_of_documents (self : DocumentEmbedder) (query : str)
    (log : list event) :
  snd (embed_query self query log) = log ++ [Encode [query]]
  /\ snd (embed_documents self [query] log) = log ++ [Encode [query]]
  /\ (forall v rest,
        fst (embed_documents self [query] log) = Ok (v :: rest) ->
        fst (embed_query self query log) = Ok v)
  /\ (fst (embed_documents self [query] log) = Ok [] ->
      fst (embed_query self query log) = Raise IndexError)
  /\ (forall e,
        fst (embed_documents self [query] log) = Raise e ->
        fst (embed_query self query log) = Raise e).
Proof.
  unfold embed_query, embed_documents, mbind, Eff_bind, emit, modify, lift.
  simpl. destruct (encode self [query]) as [[| v rest] | e]; simpl;
    rewrite ?py_getitem_head, ?py_getitem_nil;
    repeat split; congruence.
Qed.

End EmbeddingExtras.
End EmbeddingExtras.

Lemma lstrip_split (s : str) :
  exists blank, s = blank ++ lstrip s /\ Forall (fun c => isspace c = true) blank.
Proof.
  induction s as [| c s IH]; [exists []; auto |].
  simpl. destruct (isspace c) eqn:Hc.
  - destruct IH as (blank & Hs & Hblank). exists (c :: blank). split.
    + simpl. now rewrite <- Hs.
    + now constructor.
  - exists []. auto.
Qed.

Lemma lstrip_head (s : str) (c : ascii) :
  head (lstrip s) = Some c -> isspace c = false.
Proof.
  induction s as [| x s IH]; simpl; [discriminate |].
  destruct (isspace x) eqn:Hx; [exact IH |]. simpl. now intros [= <-].
Qed.

Lemma rstrip_split (s : str) :
  exists blank, s = rstrip s ++ blank /\ Forall (fun c => isspace c = true) blank.
Proof.
  unfold rstrip. destruct (lstrip_split (rev s)) as (blank & Hs & Hblank).
  exists (rev blank). split.
  - apply (f_equal (@rev ascii)) in Hs.
    now rewrite rev_involutive, rev_app_distr in Hs.
  - now apply Forall_rev.
Qed.

Lemma rstrip_last (s : str) (c : ascii) :
  last (rstrip s) = Some c -> isspace c = false.
Proof.
  unfold rstrip. destruct (lstrip (rev s)) as [| x r] eqn:Hl; [discriminate |].
  simpl. rewrite last_snoc. intros [= <-].
  apply (lstrip_head (rev s)). now rewrite Hl.
Qed.

(** What [strip] returns is the text without a blank part at each end, and
    neither end of it is whitespace. *)
Lemma strip_spec (text : str) :
  exists before after,
    text = before ++ strip text ++ after
    /\ Forall (fun c => isspace c = true) before
    /\ Forall (fun c => isspace c = true) after
    /\ (forall c, head (strip text) = Some c -> isspace c = false)
    /\ (forall c, last (strip text) = Some c -> isspace c = false).
Proof.
  destruct (lstrip_split text) as (before & Htext & Hbefore).
  destruct (rstrip_split (lstrip text)) as (after & Hl & Hafter).
  exists before, after. unfold strip. repeat split; try assumption.
  - now rewrite <- Hl.
  - intros c Hc. apply (lstrip_head text). rewrite Hl.
    destruct (rstrip (lstrip text)); [discriminate | exact Hc].
  - apply rstrip_last.
Qed.

Module LlmExtras.
Section LlmExtras.
Context `{Float32}.
Import llm.

(** X20: a generated answer is the generated text without its blank ends.
    When the generator returns a list whose first element maps
    "generated_text" to a string, [generate_answer] returns that string with
    a run of whitespace removed at each end and nothing else changed, so that
    the answer neither starts nor ends with whitespace. *)
Theorem generated_answer_is_stripped (self : SimpleLLM)
    (g : str -> result (list (gmap string pyval))) (question context : str)
    (log : list event) (first : gmap string pyval)
    (rest : list (gmap string pyval)) (text : str) :
  generator self = Some g ->
  g (prompt_of question context) = Ok (first :: rest) ->
  first !! "generated_text"%string = Some (VStr text) ->
  exists answer before after,
    fst (generate_answer self question context log) = Ok answer
    /\ text = before ++ answer ++ after
    /\ Forall (fun c => isspace c = true) before
    /\ Forall (fun c => isspace c = true) after
    /\ (forall c, head answer = Some c -> isspace c = false)
    /\ (forall c, last answer = Some c -> isspace c = false).
Proof.
  intros Hg Hrun Hkey.
  destruct (strip_spec text) as (before & after & Htext & Hbefore & Hafter & Hhead & Hlast).
  exists (strip text), before, after.
  split; [| auto].
  unfold generate_answer. rewrite Hg.
  unfold try_except, mbind, Eff_bind, emit, modify, lift, mret, Eff_ret.
  rewrite Hrun, py_getitem_head. unfold dict_getitem. rewrite Hkey. reflexivity.
Qed.

(** X21: the sizes of what goes to the generator and of what comes back
    without it.  A call of [generate_answer] calls the generator at most
    once, with a prompt that holds the whole question and at most 1500
    characters of the context: its length is
    [149 + min(len(context), 1500) + len(question)].  An answer that is not
    generated text is a fallback of at most 544 characters. *)
Theorem generate_answer_sizes (self : SimpleLLM) (question context : str)
    (log log' : list event) (answer : str) :
  generate_answer self question context log = (Ok answer, log') ->
  (log' = log
   \/ exists prompt before after,
        log' = log ++ [Generator prompt]
        /\ prompt = before ++ question ++ after
        /\ len prompt = 149 + Z.min (len context) 1500 + len question)
  /\ (len answer <= 544
      \/ exists g first rest text,
           generator self = Some g
           /\ g (prompt_of question context) = Ok (first :: rest)
           /\ first !! "generated_text"%string = Some (VStr text)
           /\ answer = strip text).
Proof.
  assert (forall n, 0 <= n -> len (py_prefix context n) = Z.min (len context) n)
    as Hprefix.
  { intros n Hn. rewrite py_prefix_firstn by exact Hn.
    unfold len. rewrite length_firstn. lia. }
  assert (len (prompt_of question context)
          = 149 + Z.min (len context) 1500 + len question) as Hprompt.
  { unfold prompt_of. rewrite !len_app, Hprefix by lia.
    change (len nl) with 1. vm_compute (len (lit _)). lia. }
  assert (len (unavailable context) <= 544 /\ len (degraded context) <= 544)
    as [Hun Hde].
  { unfold unavailable, degraded. rewrite !len_app, Hprefix by lia.
    vm_compute (len (lit _)). lia. }
  unfold generate_answer. destruct (generator self) as [g |] eqn:Hg.
  - unfold try_except, mbind, Eff_bind, emit, modify, lift, mret, Eff_ret.
    intros Hrun. split.
    + right.
      exists (prompt_of question context),
        (lit "Answer the following question based only on the context provided."
         ++ nl ++ nl ++ lit "Context: " ++ py_prefix context 1500
         ++ nl ++ nl ++ lit "Question: "),
        (nl ++ nl ++ lit "Provide a clear, concise answer based on the context above.").
      split; [| split; [| exact Hprompt]].
      * destruct (g (prompt_of question context)) as [result | e];
          [| now injection Hrun as _ <-].
        destruct (py_getitem result 0) as [first | e]; [| now injection Hrun as _ <-].
        destruct (dict_getitem first "generated_text") as [text | e];
          [| now injection Hrun as _ <-].
        destruct (str_strip text); now injection Hrun as _ <-.
      * unfold prompt_of. now rewrite <- !app_assoc.
    + destruct (g (prompt_of question context)) as [[| first rest] | e] eqn:Hcall.
      * rewrite py_getitem_nil in Hrun. injection Hrun as <- _. now left.
      * rewrite py_getitem_head in Hrun. unfold dict_getitem in Hrun.
        destruct (first !! "generated_text"%string) as [[text | x] |] eqn:Hkey;
          simpl in Hrun; injection Hrun as <- _; try (now left).
        right. exists g, first, rest, text. auto.
      * injection Hrun as <- _. now left.
  - unfold mret, Eff_ret. intros [= <- <-]. split; [now left | now left].
Qed.

End LlmExtras.
End LlmExtras.

Module ModelExamples.
Import llm Examples.

Lemma generated_answer_is_stripped_witness :
  exists before after,
    fst (generate_answer fixed_llm (lit "q") (lit "some context") [])
    = Ok (lit "an answer")
    /\ lit "  an answer " = before ++ lit "an answer" ++ after
    /\ Forall (fun c => isspace c = true) before
    /\ Forall (fun c => isspace c = true) after.
Proof.
  destruct (@LlmExtras.generated_answer_is_stripped ZFloat fixed_llm _
              (lit "q") (lit "some context") [] _ [] (lit "  an answer ")
              eq_refl eq_refl ltac:(vm_compute; reflexivity))
    as (answer & before & after & Hanswer & Htext & Hbefore & Hafter & _).
  assert (answer = lit "an answer") as ->.
  { vm_compute in Hanswer. now injection Hanswer as <-. }
  exists before, after. split; [vm_compute; reflexivity | auto].
Defined.

Lemma generate_answer_sizes_witness :
  exists prompt,
    snd (generate_answer fixed_llm (lit "q") (lit "some context") [])
    = [Generator prompt]
    /\ len prompt = 149 + 12 + 1.
Proof.
  destruct (@LlmExtras.generate_answer_sizes ZFloat fixed_llm
              (lit "q") (lit "some context") [] _ _ eq_refl)
    as [[Hlog | (prompt & before & after & Hlog & _ & Hlen)] _].
  - vm_compute in Hlog. discriminate Hlog.
  - exists prompt. split; [| exact Hlen].
    simpl in Hlog. rewrite <- Hlog. reflexivity.
Defined.

End ModelExamples.

(** ** The upload endpoint *)

Module UploadFacts.
Import main_background main_upload.

Lemma elem_of_rev (c : ascii) (s : str) : c ∈ rev s <-> c ∈ s.
Proof. rewrite !list_elem_of_In. symmetry. apply in_rev. Qed.

Lemma find_char_Some (c : ascii) (s : str) (i : nat) :
  find_char c s = Some i ->
  exists l1 l2, s = l1 ++ c :: l2 /\ length l1 = i /\ c ∉ l1.
Proof.
  revert i. induction s as [| x s IH]; intros i; simpl; [discriminate |].
  destruct (bool_decide_reflect (x = c)) as [-> | Hne].
  - intros [= <-]. exists [], s. repeat split. apply not_elem_of_nil.
  - destruct (find_char c s) as [j |]; [| discriminate].
    intros [= <-]. destruct (IH j eq_refl) as (l1 & l2 & -> & <- & Hnot).
    exists (x :: l1), l2. repeat split.
    intros [-> | Hin]%elem_of_cons; [now apply Hne | now apply Hnot].
Qed.

(** A position found by [rfind] is the last one of the character. *)
Lemma rfind_last (c : ascii) (s : str) :
  0 <= rfind c s ->
  exists l1 l2, s = l1 ++ c :: l2 /\ len l1 = rfind c s /\ c ∉ l2.
Proof.
  unfold rfind. destruct (find_char c (rev s)) as [i |] eqn:Hfind; [| lia].
  intros _. apply find_char_Some in Hfind as (l1 & l2 & Hrev & <- & Hnot).
  apply (f_equal (@rev ascii)) in Hrev. rewrite rev_involutive in Hrev.
  rewrite rev_app_distr in Hrev. simpl in Hrev. rewrite <- app_assoc in Hrev.
  simpl in Hrev. exists (rev l2), (rev l1). split; [exact Hrev |]. split.
  - subst s. unfold len. rewrite length_app. simpl.
    rewrite !length_rev. lia.
  - intros Hin. apply Hnot. exact (proj1 (elem_of_rev _ _) Hin).
Qed.

(** The extension that [splitext] returns is empty, or it is the end of the
    path from its last dot on. *)
Lemma splitext_ext (p : str) :
  snd (splitext p) = []
  \/ exists stem rest,
       p = stem ++ "."%char :: rest /\ snd (splitext p) = "."%char :: rest
       /\ "."%char ∉ rest.
Proof.
  unfold splitext.
  destruct ((rfind "/" p <? rfind "." p) && _) eqn:Hsplit; [| now left].
  right. apply andb_prop in Hsplit as [Hlt _].
  apply Z.ltb_lt in Hlt.
  assert (-1 <= rfind "/" p) as Hsep.
  { unfold rfind. destruct (find_char "/" (rev p)) as [i |] eqn:Hfind; [| lia].
    apply find_char_Some in Hfind as (l1 & l2 & Hrev & <- & _).
    apply (f_equal (@length ascii)) in Hrev. rewrite length_rev, length_app in Hrev.
    simpl in Hrev. unfold len. lia. }
  destruct (rfind_last "." p) as (l1 & l2 & Hp & Hlen & Hnot); [lia |].
  exists l1, l2. split; [exact Hp |]. split; [| exact Hnot].
  simpl. rewrite <- Hlen. clear Hlen Hlt Hsep. subst p.
  unfold py_slice, slice_index, len. rewrite length_app. simpl length.
  destruct (Z.ltb_spec (Z.of_nat (length l1)) 0); [lia |].
  destruct (Z.ltb_spec (Z.of_nat (length l1 + S (length l2))) 0); [lia |].
  rewrite Z.min_id, Z.min_l by lia. rewrite Nat2Z.id.
  rewrite skipn_app, skipn_all, Nat.sub_diag. simpl.
  apply firstn_all2. simpl. lia.
Qed.

(** The part after the last occurrence of a character is determined. *)
Lemma last_occurrence_unique (c : ascii) (l1 r1 l2 r2 : str) :
  l1 ++ c :: r1 = l2 ++ c :: r2 -> c ∉ r1 -> c ∉ r2 -> r1 = r2.
Proof.
  intros Heq Hr1 Hr2.
  assert (forall a b a' b' : str,
            a ++ c :: b = a' ++ c :: b' -> c ∉ a -> c ∉ a' -> a = a') as Hfirst.
  { induction a as [| x a IH]; intros b [| x' a'] b' Heq' Ha Ha'; simpl in Heq'.
    - reflexivity.
    - injection Heq' as <- _. exfalso. apply Ha'. left.
    - injection Heq' as -> _. exfalso. apply Ha. left.
    - injection Heq' as <- Heq'. f_equal. apply (IH b a' b' Heq').
      + intros Hin. apply Ha. now right.
      + intros Hin. apply Ha'. now right. }
  apply (f_equal (@rev ascii)) in Heq. rewrite !rev_app_distr in Heq. simpl in Heq.
  rewrite <- !app_assoc in Heq. simpl in Heq.
  apply Hfirst in Heq.
  - apply (f_equal (@rev ascii)) in Heq. now rewrite !rev_involutive in Heq.
  - intros Hin. apply Hr1. exact (proj1 (elem_of_rev _ _) Hin).
  - intros Hin. apply Hr2. exact (proj1 (elem_of_rev _ _) Hin).
Qed.

Lemma endswith_spec (s suffix : str) :
  endswith s suffix = true <-> exists before, s = before ++ suffix.
Proof.
  unfold endswith. rewrite bool_decide_eq_true. split.
  - intros Hskip. exists (firstn (length s - length suffix) s).
    pose proof (firstn_skipn (length s - length suffix) s) as Hs.
    rewrite Hskip in Hs. now symmetry.
  - intros [before ->]. rewrite length_app.
    replace (length before + length suffix - length suffix)%nat
      with (length before) by lia.
    rewrite skipn_app, skipn_all, Nat.sub_diag. reflexivity.
Qed.

(** The joined path ends with the name, whatever the name. *)
Lemma path_join_suffix (a b : str) : exists before, path_join a b = before ++ b.
Proof.
  unfold path_join. destruct (startswith b (lit "/")); [now exists [] |].
  destruct (negb (truthy a) || endswith a (lit "/")); [now exists a |].
  exists (a ++ lit "/"). now rewrite <- app_assoc.
Qed.

Lemma extractor_of_path (parser : pdf_parser) (before stem rest : str) :
  "."%char ∉ rest ->
  extracted_text parser (before ++ stem ++ "."%char :: rest)
  = if bool_decide ("."%char :: rest = lit ".pdf")
    then extract_text_from_pdf parser (before ++ stem ++ "."%char :: rest)
    else extract_text_from_txt parser (before ++ stem ++ "."%char :: rest).
Proof.
  intros Hnot. unfold extracted_text.
  destruct (bool_decide_reflect ("."%char :: rest = lit ".pdf")) as [Hext | Hext].
  - replace (endswith _ _) with true; [reflexivity |].
    symmetry. apply endswith_spec. exists (before ++ stem).
    rewrite Hext. now rewrite <- app_assoc.
  - destruct (endswith _ _) eqn:Hends; [| reflexivity].
    apply endswith_spec in Hends as [x Hx]. exfalso. apply Hext.
    rewrite app_assoc in Hx. change (lit ".pdf") with ("."%char :: lit "pdf") in Hx.
    apply last_occurrence_unique in Hx; [now rewrite Hx | exact Hnot |].
    vm_compute. intros Hin.
    repeat (apply elem_of_cons in Hin as [Hin | Hin]; [discriminate Hin |]).
    now apply elem_of_nil in Hin.
Qed.

(** X22: what [upload_document] does.  It raises the 400 error, with the
    lowered extension in it, exactly when that extension is neither ".pdf"
    nor ".txt", and then before touching anything.  An upload that is
    answered has added one task, the last one, for the path in the answer and
    the name as sent; that path is the name itself when the name starts with
    "/", and "uploads/" followed by the name otherwise.  Every other outcome
    is the 500 error, with at most that one task added. *)
Theorem upload_document_outcome (os : os_port) (upload : UploadFile)
    (tasks : list (str * str)) :
  let file_ext := lower (snd (splitext (filename upload))) in
  let file_path :=
    if startswith (filename upload) (lit "/") then filename upload
    else lit "uploads/" ++ filename upload in
  (file_ext ∉ allowed_types ->
   upload_document os upload tasks = (inr (UnsupportedType file_ext), tasks))
  /\ (file_ext ∈ allowed_types ->
      (exists resp,
         upload_document os upload tasks
         = (inl resp, tasks ++ [(file_path, filename upload)])
         /\ path resp = file_path /\ uploaded_filename resp = filename upload
         /\ getsize os file_path = Ok (size resp))
      \/ (exists cause,
            copyfileobj os file_path (file upload) = Raise cause
            /\ upload_document os upload tasks = (inr (UploadFailed cause), tasks))
      \/ (exists cause,
            getsize os file_path = Raise cause
            /\ upload_document os upload tasks
               = (inr (UploadFailed cause), tasks ++ [(file_path, filename upload)]))).
Proof.
  intros file_ext file_path.
  assert (path_join UPLOAD_DIR (filename upload) = file_path) as Hpath.
  { unfold path_join, file_path.
    destruct (startswith (filename upload) (lit "/")); reflexivity. }
  unfold upload_document. fold file_ext. rewrite Hpath. split.
  - intros Hnot. now rewrite bool_decide_eq_false_2.
  - intros Hin. rewrite bool_decide_eq_true_2 by exact Hin. simpl negb. cbv iota.
    destruct (copyfileobj os file_path (file upload)) as [[] | cause] eqn:Hcopy.
    + destruct (getsize os file_path) as [n | cause] eqn:Hsize.
      * left. eexists. split; [reflexivity |]. simpl. auto.
      * right. right. exists cause. auto.
    + right. left. exists cause. auto.
Qed.

(** X23: the extension check of the upload and the choice of the extractor
    do not agree.  The upload compares the lowered extension, the background
    task tests whether the path ends in ".pdf" as written.  So for every
    upload that is answered, the task it added reads the file with the PDF
    extractor when the extension of the name is ".pdf" in lower case, and
    with the text extractor in every other case, ".PDF" and ".Pdf"
    included. *)
Theorem uploaded_file_extractor (os : os_port) (upload : UploadFile)
    (tasks tasks' : list (str * str)) (resp : uploaded) (parser : pdf_parser) :
  upload_document os upload tasks = (inl resp, tasks') ->
  let ext := snd (splitext (filename upload)) in
  (lower ext = lit ".pdf" \/ lower ext = lit ".txt")
  /\ last tasks' = Some (path resp, filename upload)
  /\ extracted_text parser (path resp)
     = if bool_decide (ext = lit ".pdf")
       then extract_text_from_pdf parser (path resp)
       else extract_text_from_txt parser (path resp).
Proof.
  intros Hup ext. unfold upload_document in Hup. fold ext in Hup.
  destruct (bool_decide_reflect (lower ext ∈ allowed_types)) as [Hin | Hnot];
    simpl negb in Hup; cbv iota in Hup; [| discriminate].
  destruct (copyfileobj os _ (file upload)) as [[] | cause]; [| discriminate].
  destruct (getsize os _) as [n | cause]; [| discriminate].
  injection Hup as <- <-. cbn [path].
  split; [| split].
  - unfold allowed_types in Hin.
    apply elem_of_cons in Hin as [Hin | Hin]; [now left |].
    apply elem_of_cons in Hin as [Hin | Hin]; [now right |].
    now apply elem_of_nil in Hin.
  - apply last_snoc.
  - destruct (path_join_suffix UPLOAD_DIR (filename upload)) as [before ->].
    destruct (splitext_ext (filename upload)) as [Hempty | (stem & rest & Hname & Hext & Hdot)].
    + exfalso. fold ext in Hempty. rewrite Hempty in Hin. vm_compute in Hin.
      repeat (apply elem_of_cons in Hin as [Hin | Hin]; [discriminate Hin |]).
      now apply elem_of_nil in Hin.
    + fold ext in Hext. rewrite Hext, Hname. now apply extractor_of_path.
Qed.

End UploadFacts.

Module UploadWitnesses.
Import main_background main_upload UploadExamples.

Lemma upload_document_outcome_witness :
  upload_document disk dotfile [] = (inr (UnsupportedType []), [])
  /\ exists resp,
       upload_document disk absolute []
       = (inl resp, [(lit "/srv/app/notes.txt", lit "/srv/app/notes.txt")])
       /\ path resp = lit "/srv/app/notes.txt".
Proof.
  split.
  - apply (proj1 (UploadFacts.upload_document_outcome disk dotfile [])).
    vm_compute. intros Hin.
    repeat (apply elem_of_cons in Hin as [Hin | Hin]; [discriminate Hin |]).
    now apply elem_of_nil in Hin.
  - destruct (proj2 (UploadFacts.upload_document_outcome disk absolute []))
      as [(resp & Hup & Hpath & _) | [(cause & Hc & _) | (cause & Hc & _)]].
    + vm_compute. right. left.
    + exists resp. split; [exact Hup | exact Hpath].
    + discriminate Hc.
    + discriminate Hc.
Defined.

Lemma uploaded_file_extractor_witness :
  upload_document disk report []
  = (inl {| message := lit "File uploaded successfully! Processing in background...";
            uploaded_filename := lit "REPORT.PDF";
            path := lit "uploads/REPORT.PDF";
            size := 12;
            status := lit "processing" |},
     [(lit "uploads/REPORT.PDF", lit "REPORT.PDF")])
  /\ extracted_text telling_parser (lit "uploads/REPORT.PDF")
     = Ok (lit "from the text extractor").
Proof.
  split; [vm_compute; reflexivity |].
  exact (proj2 (proj2 (UploadFacts.uploaded_file_extractor disk report [] _ _
                         telling_parser eq_refl))).
Defined.

End UploadWitnesses.
